(** * wpml: the Waylines schema of the DJI waylines SDK

    A shallow embedding of [converter_schema.go]: the [Waylines] and
    [WaylinesWaypoint] structs with their [validate] struct tags, the two
    methods [Validate] and [ApplyDefaults], and the tag engine
    (go-playground/validator/v10, named by the README) that gives the tags
    their meaning. *)

From Stdlib Require Import ZArith String Ascii List Bool Lia Floats.
From stdpp Require Import base option list strings pretty gmap.
Import ListNotations.

Set Warnings "-inexact-float".

Local Open Scope string_scope.
Local Open Scope list_scope.
Local Open Scope Z_scope.

(** ** Go values *)

(** Go's [float64] is IEEE 754 binary64: Rocq's primitive floats. *)
Abbreviation float64 := PrimFloat.float.

(** A Go slice is either [nil] or a (possibly empty) run of elements. *)
Inductive slice (A : Type) : Type :=
| nil_slice
| mk_slice (elems : list A).
Arguments nil_slice {A}.
Arguments mk_slice {A} elems.

Definition elems {A} (s : slice A) : list A :=
  match s with
  | nil_slice => []
  | mk_slice l => l
  end.

Definition len {A} (s : slice A) : nat := length (elems s).

Definition IsNil {A} (s : slice A) : bool :=
  match s with
  | nil_slice => true
  | mk_slice _ => false
  end.

(** A value held in a [map[string]interface{}]. *)
Inductive any : Type :=
| AInt (n : Z)
| AFloat (f : float64)
| AString (s : string)
| ABool (b : bool).

(** ** The domain model *)

(** The named string types of the package.  Their declarations are not in
    [converter_schema.go]; the README shows their constants to be strings. *)
Definition DroneModel := string.
Definition PayloadModel := string.
Definition TemplateType := string.
Definition FinishAction := string.
Definition HeightMode := string.

(** Modelled from the spec: the declaration of [PayloadPosition] is missing;
    the README passes the payload position index as an integer. *)
Definition PayloadPosition := Z.

(** Modelled from the spec: the constant [HeightModeRelativeToStartPoint] is
    missing; the [default] tag of [Waylines.HeightType] and the height modes
    listed in the spec give its value. *)
Definition HeightModeRelativeToStartPoint : HeightMode :=
  "relativeToStartPoint".

(** Modelled from the spec: the declaration of [ActionRequest] is missing; the
    README builds it from a [Type] tag and a [Params] map. *)
Module ActionRequest.
Record t : Type := mk {
  Type_ : string;
  Params : gmap string any
}.
End ActionRequest.

Module WaylinesWaypoint.
Record t : Type := mk {
  Latitude : float64;
  Longitude : float64;
  Height : float64;
  Speed : float64;
  TriggerType : string;
  TriggerParam : float64;
  WaypointTurnMode : string;
  UseStraightLine : option bool;
  TurnDampingDist : float64;
  Actions : slice ActionRequest.t
}.
End WaylinesWaypoint.

Module Waylines.
Record t : Type := mk {
  Name : string;
  Description : string;
  DroneModel : DroneModel;
  PayloadModel : PayloadModel;
  PayloadPositionIndex : PayloadPosition;
  TemplateType : TemplateType;
  GlobalHeight : float64;
  GlobalSpeed : float64;
  PhotoSettings : slice string;
  UseLowLightSmart : bool;
  FinishAction : FinishAction;
  HeightType : HeightMode;
  ClimbMode : string;
  SafeHeight : float64;
  GlobalRTHHeight : float64;
  AircraftYawMode : string;
  GimbalPitchMode : string;
  GlobalTransitionalSpeed : float64;
  TakeOffRefPointLatitude : float64;
  TakeOffRefPointLongitude : float64;
  TakeOffRefPointHeight : float64;
  TakeOffRefPointAGLHeight : option float64;
  GlobalWaypointTurnMode : string;
  GlobalUseStraightLine : option bool;
  GlobalTurnDampingDist : float64;
  Waypoints : slice WaylinesWaypoint.t
}.

(** The assignment [w.HeightType = h]. *)
Definition set_HeightType (h : HeightMode) (w : t) : t :=
  mk (Name w) (Description w) (DroneModel w) (PayloadModel w)
     (PayloadPositionIndex w) (TemplateType w) (GlobalHeight w)
     (GlobalSpeed w) (PhotoSettings w) (UseLowLightSmart w) (FinishAction w)
     h (ClimbMode w) (SafeHeight w) (GlobalRTHHeight w) (AircraftYawMode w)
     (GimbalPitchMode w) (GlobalTransitionalSpeed w)
     (TakeOffRefPointLatitude w) (TakeOffRefPointLongitude w)
     (TakeOffRefPointHeight w) (TakeOffRefPointAGLHeight w)
     (GlobalWaypointTurnMode w) (GlobalUseStraightLine w)
     (GlobalTurnDampingDist w) (Waypoints w).
End Waylines.

(** ** The validation engine

    [Validate] hands the receiver to [NewWPMLValidator().ValidateStruct].
    The README names go-playground/validator/v10 as the engine behind it; the
    definitions below follow that library's [validateStruct] and
    [traverseField] and the built-in tag functions the struct tags of
    [converter_schema.go] use. *)

(** [utf8.RuneCountInString], which [min] and [max] apply to a string. *)
Module utf8.
Local Open Scope N_scope.

(** Size and accepted range of the second byte for a leading byte [c >= 0x80]
    (the tables [first] and [acceptRanges]); [None] is the entry [xx]. *)
Definition first (c : N) : option (nat * (N * N)) :=
  if c <? 0xC2 then None
  else if c <? 0xE0 then Some (2%nat, (0x80, 0xBF))
  else if c =? 0xE0 then Some (3%nat, (0xA0, 0xBF))
  else if c =? 0xED then Some (3%nat, (0x80, 0x9F))
  else if c <? 0xF0 then Some (3%nat, (0x80, 0xBF))
  else if c =? 0xF0 then Some (4%nat, (0x90, 0xBF))
  else if c <? 0xF4 then Some (4%nat, (0x80, 0xBF))
  else if c =? 0xF4 then Some (4%nat, (0x80, 0x8F))
  else None.

Definition continuation (c : N) : bool := (0x80 <=? c) && (c <=? 0xBF).

(** The number of bytes one pass of the loop consumes at leading byte [c]
    followed by [rest]. *)
Definition rune_size (c : N) (rest : list N) : nat :=
  if c <? 0x80 then 1%nat
  else match first c with
       | None => 1%nat
       | Some (size, (lo, hi)) =>
           if (length rest <? size - 1)%nat then 1%nat
           else
             let c1 := nth 0 rest 0 in
             if (c1 <? lo) || (hi <? c1) then 1%nat
             else if (size =? 2)%nat then 2%nat
             else if negb (continuation (nth 1 rest 0)) then 1%nat
             else if (size =? 3)%nat then 3%nat
             else if negb (continuation (nth 2 rest 0)) then 1%nat
             else size
       end.

Fixpoint count (fuel : nat) (s : list N) : nat :=
  match fuel, s with
  | S fuel, c :: rest => S (count fuel (drop (rune_size c rest - 1) rest))
  | _, _ => 0%nat
  end.

Fixpoint bytes (s : string) : list N :=
  match s with
  | EmptyString => []
  | String a s => N_of_ascii a :: bytes s
  end.

Definition RuneCountInString (s : string) : nat :=
  let b := bytes s in count (length b) b.
End utf8.

(** A namespace, innermost element first: [Waylines.Waypoints[2].Height] is
    [root "Waylines" ./ "Waypoints" .# 2 ./ "Height"]. *)
Inductive PathElem : Type :=
| PField (name : string)
| PIndex (i : nat).

Definition path : Type := list PathElem.

Definition root (struct_name : string) : path := [PField struct_name].
Notation "ns ./ f" := (PField f :: ns) (at level 40, left associativity).
Notation "ns .# i" := (PIndex i :: ns) (at level 40, left associativity).

(** The dotted form the library prints. *)
Fixpoint Namespace_string (ns : path) : string :=
  match ns with
  | [] => ""
  | [PField f] => f
  | PField f :: ns => Namespace_string ns +:+ "." +:+ f
  | PIndex i :: ns => Namespace_string ns +:+ "[" +:+ pretty i +:+ "]"
  end.

(** The tags of a [validate:"..."] struct tag, in the order written. *)
Inductive Tag : Type :=
| Required
| Omitempty
| Min (param : Z)
| Max (param : Z)
| Oneof (vals : list string)
| Dive
| Custom (name : string).

(** What reflection shows of a field: its kind and the part of its value the
    tag functions look at. *)
Inductive FieldValue : Type :=
| KString (s : string)
| KFloat64 (f : float64)
| KInt (n : Z)
| KBool (b : bool)
| KPtr (isnil : bool)
| KSlice (isnil : bool) (length : nat).

Record FieldError : Type := mkFieldError {
  Namespace : path;
  FailedTag : Tag
}.

(** [ValidationErrors], and Go's [error] holding it ([None] is [nil]). *)
Definition ValidationErrors : Type := list FieldError.
Definition error : Type := option ValidationErrors.

Definition errors_of (e : error) : ValidationErrors := default [] e.

(** The [float64] nearest to the integer [n], ties to even: what Go's
    conversion [float64(n)] and [strconv.ParseFloat] on a decimal integer
    give.  Above 62 bits the integer is cut to 62 bits with a sticky last
    bit, rounded by the conversion from a machine integer, and scaled
    back. *)
Definition Z_to_float64 (n : Z) : float64 :=
  let a := Z.abs n in
  let f :=
    if a <? 2 ^ 62 then PrimFloat.of_uint63 (Uint63.of_Z a)
    else
      let e := Z.log2 a - 61 in
      let m := Z.shiftr a e in
      let sticky := if a mod 2 ^ e =? 0 then 0 else 1 in
      Z.ldexp (PrimFloat.of_uint63 (Uint63.of_Z (Z.lor m sticky))) e in
  if n <? 0 then PrimFloat.opp f else f.

(** [asFloat64]: the parameter of [min] or [max] read for a float field. *)
Definition asFloat64 (param : Z) : float64 := Z_to_float64 param.

(** [hasValue]: the field is not the zero value of its type
    ([reflect.Value.IsZero]; [IsNil] for slices and pointers).  A float is
    zero when it compares equal to 0, so negative zero has no value and NaN
    has one. *)
Definition hasValue (v : FieldValue) : bool :=
  match v with
  | KString s => negb (String.eqb s "")
  | KFloat64 f => negb (PrimFloat.eqb f 0%float)
  | KInt n => negb (n =? 0)
  | KBool b => b
  | KPtr isnil => negb isnil
  | KSlice isnil _ => negb isnil
  end.

(** [isGte], behind [min].  On a kind it has no case for the library panics;
    no tag of [converter_schema.go] puts [min], [max] or [oneof] on such a
    field, and the functions answer [false] there. *)
Definition isGte (param : Z) (v : FieldValue) : bool :=
  match v with
  | KString s => param <=? Z.of_nat (utf8.RuneCountInString s)
  | KSlice _ n => param <=? Z.of_nat n
  | KInt n => param <=? n
  | KFloat64 f => PrimFloat.leb (asFloat64 param) f
  | KBool _ | KPtr _ => false
  end.

(** [isLte], behind [max]. *)
Definition isLte (param : Z) (v : FieldValue) : bool :=
  match v with
  | KString s => Z.of_nat (utf8.RuneCountInString s) <=? param
  | KSlice _ n => Z.of_nat n <=? param
  | KInt n => n <=? param
  | KFloat64 f => PrimFloat.leb f (asFloat64 param)
  | KBool _ | KPtr _ => false
  end.

(** [isOneOf]: the field, a string, is one of the listed values. *)
Definition isOneOf (vals : list string) (v : FieldValue) : bool :=
  match v with
  | KString s => existsb (String.eqb s) vals
  | _ => false
  end.

(** What the tag loop of [traverseField] comes to on one field. *)
Inductive Outcome : Type :=
| Passed
| Failed (t : Tag)
| Diving (rest : list Tag).

(** A struct field as the walk sees it: its name, its tags and its value; for
    a slice, also how [dive] visits an element. *)
Inductive Field : Type :=
| Plain (name : string) (cts : list Tag) (v : FieldValue)
| Sliced {A : Type} (name : string) (cts : list Tag) (s : slice A)
    (elem : path -> list Tag -> A -> list FieldError).

Definition turn_modes : list string :=
  ["coordinateTurn"; "toPointAndStopWithDiscontinuityCurvature";
   "toPointAndStopWithContinuityCurvature";
   "toPointAndPassWithContinuityCurvature"].

Definition trigger_types : list string :=
  ["reachPoint"; "passPoint"; "manual"; "betweenAdjacentPoints";
   "multipleTiming"; "multipleDistance"].

Definition relocate (ns : path) (e : FieldError) : FieldError :=
  mkFieldError (Namespace e ++ ns) (FailedTag e).

Section Engine.
(** The functions [NewWPMLValidator] registers for the package's own tags
    ([drone_model], [payload_model], [payload_position]); their code is not
    in [converter_schema.go]. *)
Variable registry : string -> FieldValue -> bool.

(** The struct walk over one [ActionRequest], whose struct tags are not in
    [converter_schema.go]: its errors, with namespaces relative to the
    request. *)
Variable validate_ActionRequest : ActionRequest.t -> list FieldError.

Definition tag_fn (t : Tag) (v : FieldValue) : bool :=
  match t with
  | Required => hasValue v
  | Min p => isGte p v
  | Max p => isLte p v
  | Oneof vals => isOneOf vals v
  | Custom name => registry name v
  | Omitempty | Dive => true
  end.

(** The loop over the tags of a field: [omitempty] ends it on a zero value,
    [dive] hands the remaining tags to the elements, and the first tag whose
    function fails ends it with that error. *)
Fixpoint run_tags (cts : list Tag) (v : FieldValue) : Outcome :=
  match cts with
  | [] => Passed
  | Omitempty :: cts => if hasValue v then run_tags cts v else Passed
  | Dive :: cts => Diving cts
  | t :: cts => if tag_fn t v then run_tags cts v else Failed t
  end.

(** [traverseField] on a field that is not a slice. *)
Definition traverseField (ns : path) (name : string) (cts : list Tag)
    (v : FieldValue) : list FieldError :=
  match run_tags cts v with
  | Failed t => [mkFieldError (ns ./ name) t]
  | Passed | Diving _ => []
  end.

(** [traverseField] on a slice: the tags before [dive] see the slice, and
    [dive] visits element [i] under the name [name[i]]. *)
Definition traverseSlice {A} (ns : path) (name : string) (cts : list Tag)
    (s : slice A) (elem : path -> list Tag -> A -> list FieldError)
    : list FieldError :=
  match run_tags cts (KSlice (IsNil s) (len s)) with
  | Failed t => [mkFieldError (ns ./ name) t]
  | Passed => []
  | Diving rest =>
      mjoin (imap (fun i x => elem (ns ./ name .# i) rest x) (elems s))
  end.

Definition traverse (ns : path) (f : Field) : list FieldError :=
  match f with
  | Plain name cts v => traverseField ns name cts v
  | Sliced name cts s elem => traverseSlice ns name cts s elem
  end.

(** [validateStruct]: the loop over the fields of a struct, in declaration
    order, collecting the errors of each. *)
Definition validateStruct (ns : path) (fields : list Field)
    : list FieldError :=
  fields ≫= traverse ns.

(** A slice element that is a string: the tags after [dive] apply to it. *)
Definition dive_string (ns : path) (cts : list Tag) (x : string)
    : list FieldError :=
  match run_tags cts (KString x) with
  | Failed t => [mkFieldError ns t]
  | Passed | Diving _ => []
  end.

(** A slice element that is an [ActionRequest]. *)
Definition dive_ActionRequest (ns : path) (cts : list Tag)
    (a : ActionRequest.t) : list FieldError :=
  relocate ns <$> validate_ActionRequest a.

(** [type WaylinesWaypoint struct]: the fields with their [validate] tags. *)
Definition WaylinesWaypoint_fields (p : WaylinesWaypoint.t) : list Field :=
  [ Plain "Latitude" [Required; Min (-90); Max 90]
      (KFloat64 (WaylinesWaypoint.Latitude p));
    Plain "Longitude" [Required; Min (-180); Max 180]
      (KFloat64 (WaylinesWaypoint.Longitude p));
    Plain "Height" [Required; Min 5; Max 500]
      (KFloat64 (WaylinesWaypoint.Height p));
    Plain "Speed" [Min 1; Max 15] (KFloat64 (WaylinesWaypoint.Speed p));
    Plain "TriggerType" [Oneof trigger_types]
      (KString (WaylinesWaypoint.TriggerType p));
    Plain "TriggerParam" [Min 0]
      (KFloat64 (WaylinesWaypoint.TriggerParam p));
    Plain "WaypointTurnMode" [Omitempty; Oneof turn_modes]
      (KString (WaylinesWaypoint.WaypointTurnMode p));
    Plain "UseStraightLine" []
      (KPtr (bool_decide (WaylinesWaypoint.UseStraightLine p = None)));
    Plain "TurnDampingDist" [Min 0]
      (KFloat64 (WaylinesWaypoint.TurnDampingDist p));
    Sliced "Actions" [Dive] (WaylinesWaypoint.Actions p)
      dive_ActionRequest ].

(** A slice element that is a [WaylinesWaypoint]: the walk goes into it. *)
Definition dive_WaylinesWaypoint (ns : path) (cts : list Tag)
    (p : WaylinesWaypoint.t) : list FieldError :=
  validateStruct ns (WaylinesWaypoint_fields p).

(** [type Waylines struct]: the fields with their [validate] tags. *)
Definition Waylines_fields (w : Waylines.t) : list Field :=
  [ Plain "Name" [Required; Min 1; Max 100] (KString (Waylines.Name w));
    Plain "Description" [Max 500] (KString (Waylines.Description w));
    Plain "DroneModel" [Required; Custom "drone_model"]
      (KString (Waylines.DroneModel w));
    Plain "PayloadModel" [Required; Custom "payload_model"]
      (KString (Waylines.PayloadModel w));
    Plain "PayloadPositionIndex" [Custom "payload_position"]
      (KInt (Waylines.PayloadPositionIndex w));
    Plain "TemplateType" [Required] (KString (Waylines.TemplateType w));
    Plain "GlobalHeight" [Min 5; Max 1500]
      (KFloat64 (Waylines.GlobalHeight w));
    Plain "GlobalSpeed" [Min 1; Max 15] (KFloat64 (Waylines.GlobalSpeed w));
    Sliced "PhotoSettings" [Dive; Oneof ["wide"; "zoom"; "ir"; "vision"]]
      (Waylines.PhotoSettings w) dive_string;
    Plain "UseLowLightSmart" [] (KBool (Waylines.UseLowLightSmart w));
    Plain "FinishAction" [] (KString (Waylines.FinishAction w));
    Plain "HeightType" [] (KString (Waylines.HeightType w));
    Plain "ClimbMode" [Oneof ["vertical"; "inclined"]]
      (KString (Waylines.ClimbMode w));
    Plain "SafeHeight" [Min 20; Max 200] (KFloat64 (Waylines.SafeHeight w));
    Plain "GlobalRTHHeight" [Min 20; Max 1500]
      (KFloat64 (Waylines.GlobalRTHHeight w));
    Plain "AircraftYawMode"
      [Oneof ["followWayline"; "followRoute"; "manual"; "free"]]
      (KString (Waylines.AircraftYawMode w));
    Plain "GimbalPitchMode" [Oneof ["usePointSetting"; "manual"; "free"]]
      (KString (Waylines.GimbalPitchMode w));
    Plain "GlobalTransitionalSpeed" [Min 1; Max 15]
      (KFloat64 (Waylines.GlobalTransitionalSpeed w));
    Plain "TakeOffRefPointLatitude" [Min (-90); Max 90]
      (KFloat64 (Waylines.TakeOffRefPointLatitude w));
    Plain "TakeOffRefPointLongitude" [Min (-180); Max 180]
      (KFloat64 (Waylines.TakeOffRefPointLongitude w));
    Plain "TakeOffRefPointHeight" []
      (KFloat64 (Waylines.TakeOffRefPointHeight w));
    Plain "TakeOffRefPointAGLHeight" []
      (KPtr (bool_decide (Waylines.TakeOffRefPointAGLHeight w = None)));
    Plain "GlobalWaypointTurnMode" [Omitempty; Oneof turn_modes]
      (KString (Waylines.GlobalWaypointTurnMode w));
    Plain "GlobalUseStraightLine" []
      (KPtr (bool_decide (Waylines.GlobalUseStraightLine w = None)));
    Plain "GlobalTurnDampingDist" [Min 0]
      (KFloat64 (Waylines.GlobalTurnDampingDist w));
    Sliced "Waypoints" [Required; Min 1; Dive] (Waylines.Waypoints w)
      dive_WaylinesWaypoint ].

(** Modelled from the spec: [NewWPMLValidator] and [ValidateStruct] are not
    in [converter_schema.go].  The validator returns success or the ordered
    list of all violations found in one pass, each naming the offending
    field: the engine's walk over the struct, [nil] when it finds nothing. *)
Definition ValidateStruct (w : Waylines.t) : error :=
  match validateStruct (root "Waylines") (Waylines_fields w) with
  | [] => None
  | errs => Some errs
  end.
End Engine.


(** ** Methods on a pointer receiver

    [func (w *Waylines) M()] may read and write [*w]: a computation that
    threads the receiver. *)
Definition Method (S A : Type) : Type := S -> A * S.

Definition ret {S A} (a : A) : Method S A := fun s => (a, s).
Definition bind {S A B} (m : Method S A) (k : A -> Method S B) : Method S B :=
  fun s => let '(a, s') := m s in k a s'.
Definition load {S} : Method S S := fun s => (s, s).
Definition store {S} (s : S) : Method S unit := fun _ => (tt, s).

Notation "'let*' x := m 'in' k" := (bind m (fun x => k))
  (at level 10, x name, m at level 100, k at level 200).

(** The receiver after the call. *)
Definition after {S A} (m : Method S A) (s : S) : S := snd (m s).
(** The value the call returns. *)
Definition result {S A} (m : Method S A) (s : S) : A := fst (m s).

(** [func (w *Waylines) ApplyDefaults()] *)
Definition ApplyDefaults : Method Waylines.t unit :=
  let* w := load in
  if String.eqb (Waylines.HeightType w) ""
  then store (Waylines.set_HeightType HeightModeRelativeToStartPoint w)
  else ret tt.

(** [func (w *Waylines) Validate() error] *)
Definition Validate (registry : string -> FieldValue -> bool)
    (validate_ActionRequest : ActionRequest.t -> list FieldError)
    : Method Waylines.t error :=
  let* w := load in
  ret (ValidateStruct registry validate_ActionRequest w).

(** ** The missions of the README *)

(** A registry for the examples: the drone and payload models the README
    lists, and any non-negative payload position. *)
Definition readme_registry (name : string) (v : FieldValue) : bool :=
  if String.eqb name "drone_model"
  then isOneOf ["Mini 3"; "Air 2S"; "Mavic 3"; "M3TD"; "M3M"; "M3E"] v
  else if String.eqb name "payload_model"
  then isOneOf ["Mini 3"; "Air 2S"; "M3TD"; "M3M"] v
  else if String.eqb name "payload_position"
  then match v with KInt n => 0 <=? n | _ => false end
  else false.

Definition no_action_errors (a : ActionRequest.t) : list FieldError := [].

Definition takePhoto_request : ActionRequest.t :=
  ActionRequest.mk "takePhoto" {[ "payloadPositionIndex" := AInt 0 ]}.

(** The [Waylines] of the README's Quick Start. *)
Definition quick_start : Waylines.t :=
  {| Waylines.Name := "Sample Mission";
     Waylines.Description := "A simple waypoint mission";
     Waylines.DroneModel := "M3TD";
     Waylines.PayloadModel := "M3TD";
     Waylines.PayloadPositionIndex := 0;
     Waylines.TemplateType := "waypoint";
     Waylines.GlobalHeight := 50%float;
     Waylines.GlobalSpeed := 5%float;
     Waylines.PhotoSettings := nil_slice;
     Waylines.UseLowLightSmart := false;
     Waylines.FinishAction := "";
     Waylines.HeightType := "relativeToStartPoint";
     Waylines.ClimbMode := "";
     Waylines.SafeHeight := 0%float;
     Waylines.GlobalRTHHeight := 0%float;
     Waylines.AircraftYawMode := "";
     Waylines.GimbalPitchMode := "";
     Waylines.GlobalTransitionalSpeed := 0%float;
     Waylines.TakeOffRefPointLatitude := 0%float;
     Waylines.TakeOffRefPointLongitude := 0%float;
     Waylines.TakeOffRefPointHeight := 0%float;
     Waylines.TakeOffRefPointAGLHeight := None;
     Waylines.GlobalWaypointTurnMode := "";
     Waylines.GlobalUseStraightLine := None;
     Waylines.GlobalTurnDampingDist := 0%float;
     Waylines.Waypoints := mk_slice
       [ {| WaylinesWaypoint.Latitude := 39.9042%float;
            WaylinesWaypoint.Longitude := 116.4074%float;
            WaylinesWaypoint.Height := 50%float;
            WaylinesWaypoint.Speed := 5%float;
            WaylinesWaypoint.TriggerType := "";
            WaylinesWaypoint.TriggerParam := 0%float;
            WaylinesWaypoint.WaypointTurnMode := "";
            WaylinesWaypoint.UseStraightLine := None;
            WaylinesWaypoint.TurnDampingDist := 0%float;
            WaylinesWaypoint.Actions := mk_slice [takePhoto_request] |};
         {| WaylinesWaypoint.Latitude := 39.9052%float;
            WaylinesWaypoint.Longitude := 116.4084%float;
            WaylinesWaypoint.Height := 60%float;
            WaylinesWaypoint.Speed := 5%float;
            WaylinesWaypoint.TriggerType := "";
            WaylinesWaypoint.TriggerParam := 0%float;
            WaylinesWaypoint.WaypointTurnMode := "";
            WaylinesWaypoint.UseStraightLine := None;
            WaylinesWaypoint.TurnDampingDist := 0%float;
            WaylinesWaypoint.Actions := nil_slice |} ] |}.

(** ** Reading what the engine returns *)

(** The violations [Validate] returns on [w] (none when it returns [nil]). *)
Definition violations (registry : string -> FieldValue -> bool)
    (validate_ActionRequest : ActionRequest.t -> list FieldError)
    (w : Waylines.t) : ValidationErrors :=
  errors_of (result (Validate registry validate_ActionRequest) w).

Definition field_name (f : Field) : string :=
  match f with
  | Plain name _ _ => name
  | Sliced name _ _ _ => name
  end.

(** The error [e] lies at or below the namespace [ns]. *)
Definition under (ns : path) (e : FieldError) : Prop :=
  exists rest, Namespace e = rest ++ ns.

(** The element visitor of a slice field reports below the element it is
    given. *)
Definition well_placed (f : Field) : Prop :=
  match f with
  | Plain _ _ _ => True
  | Sliced _ _ _ elem => forall ns cts x e, e ∈ elem ns cts x -> under ns e
  end.

(** The list of violations names the namespace [ns]. *)
Definition reports (errs : ValidationErrors) (ns : path) : Prop :=
  exists e, e ∈ errs /\ Namespace e = ns.

(** [lo <= f && f <= hi], as [min=lo,max=hi] compare a [float64]. *)
Definition within (lo hi : Z) (f : float64) : bool :=
  PrimFloat.leb (asFloat64 lo) f && PrimFloat.leb f (asFloat64 hi).

(** Every field of a [Waylines] but [HeightType] is the same in [w] and [w']. *)
Definition others_unchanged (w w' : Waylines.t) : Prop :=
  Waylines.Name w' = Waylines.Name w
  /\ Waylines.Description w' = Waylines.Description w
  /\ Waylines.DroneModel w' = Waylines.DroneModel w
  /\ Waylines.PayloadModel w' = Waylines.PayloadModel w
  /\ Waylines.PayloadPositionIndex w' = Waylines.PayloadPositionIndex w
  /\ Waylines.TemplateType w' = Waylines.TemplateType w
  /\ Waylines.GlobalHeight w' = Waylines.GlobalHeight w
  /\ Waylines.GlobalSpeed w' = Waylines.GlobalSpeed w
  /\ Waylines.PhotoSettings w' = Waylines.PhotoSettings w
  /\ Waylines.UseLowLightSmart w' = Waylines.UseLowLightSmart w
  /\ Waylines.FinishAction w' = Waylines.FinishAction w
  /\ Waylines.ClimbMode w' = Waylines.ClimbMode w
  /\ Waylines.SafeHeight w' = Waylines.SafeHeight w
  /\ Waylines.GlobalRTHHeight w' = Waylines.GlobalRTHHeight w
  /\ Waylines.AircraftYawMode w' = Waylines.AircraftYawMode w
  /\ Waylines.GimbalPitchMode w' = Waylines.GimbalPitchMode w
  /\ Waylines.GlobalTransitionalSpeed w' = Waylines.GlobalTransitionalSpeed w
  /\ Waylines.TakeOffRefPointLatitude w' = Waylines.TakeOffRefPointLatitude w
  /\ Waylines.TakeOffRefPointLongitude w' = Waylines.TakeOffRefPointLongitude w
  /\ Waylines.TakeOffRefPointHeight w' = Waylines.TakeOffRefPointHeight w
  /\ Waylines.TakeOffRefPointAGLHeight w' = Waylines.TakeOffRefPointAGLHeight w
  /\ Waylines.GlobalWaypointTurnMode w' = Waylines.GlobalWaypointTurnMode w
  /\ Waylines.GlobalUseStraightLine w' = Waylines.GlobalUseStraightLine w
  /\ Waylines.GlobalTurnDampingDist w' = Waylines.GlobalTurnDampingDist w
  /\ Waylines.Waypoints w' = Waylines.Waypoints w.

(** ** Missions that set every field *)

Definition waypoint (lat lon height speed : float64) (trigger : string)
    : WaylinesWaypoint.t :=
  {| WaylinesWaypoint.Latitude := lat;
     WaylinesWaypoint.Longitude := lon;
     WaylinesWaypoint.Height := height;
     WaylinesWaypoint.Speed := speed;
     WaylinesWaypoint.TriggerType := trigger;
     WaylinesWaypoint.TriggerParam := 0%float;
     WaylinesWaypoint.WaypointTurnMode := "";
     WaylinesWaypoint.UseStraightLine := None;
     WaylinesWaypoint.TurnDampingDist := 0%float;
     WaylinesWaypoint.Actions := nil_slice |}.

Definition mission (name : string) (height speed : float64)
    (waypoints : slice WaylinesWaypoint.t) : Waylines.t :=
  {| Waylines.Name := name;
     Waylines.Description := "";
     Waylines.DroneModel := "M3TD";
     Waylines.PayloadModel := "M3TD";
     Waylines.PayloadPositionIndex := 0;
     Waylines.TemplateType := "waypoint";
     Waylines.GlobalHeight := height;
     Waylines.GlobalSpeed := speed;
     Waylines.PhotoSettings := nil_slice;
     Waylines.UseLowLightSmart := false;
     Waylines.FinishAction := "goHome";
     Waylines.HeightType := "relativeToStartPoint";
     Waylines.ClimbMode := "vertical";
     Waylines.SafeHeight := 50%float;
     Waylines.GlobalRTHHeight := 120%float;
     Waylines.AircraftYawMode := "followWayline";
     Waylines.GimbalPitchMode := "usePointSetting";
     Waylines.GlobalTransitionalSpeed := 10%float;
     Waylines.TakeOffRefPointLatitude := 0%float;
     Waylines.TakeOffRefPointLongitude := 0%float;
     Waylines.TakeOffRefPointHeight := 0%float;
     Waylines.TakeOffRefPointAGLHeight := None;
     Waylines.GlobalWaypointTurnMode := "";
     Waylines.GlobalUseStraightLine := None;
     Waylines.GlobalTurnDampingDist := 0%float;
     Waylines.Waypoints := waypoints |}.

(** A mission within every range. *)
Definition beijing_mission : Waylines.t :=
  mission "Sample Mission" 50%float 5%float
    (mk_slice [waypoint 39.9042%float 116.4074%float 50%float 5%float
                 "reachPoint"]).

(** The same mission flown at latitude 0, longitude 0. *)
Definition equator_mission : Waylines.t :=
  mission "Sample Mission" 50%float 5%float
    (mk_slice [waypoint 0%float 0%float 50%float 5%float "reachPoint"]).

(** The mission at latitude 0, longitude 0 with [GlobalHeight] and
    [GlobalSpeed] left unset. *)
Definition equator_no_globals_mission : Waylines.t :=
  mission "Sample Mission" 0%float 0%float
    (mk_slice [waypoint 0%float 0%float 50%float 5%float "reachPoint"]).

(** The mission within every range, but with [GlobalHeight] and
    [GlobalSpeed] left unset. *)
Definition no_globals_mission : Waylines.t :=
  mission "Sample Mission" 0%float 0%float
    (mk_slice [waypoint 39.9042%float 116.4074%float 50%float 5%float
                 "reachPoint"]).

(** The same mission with the waypoint's [Speed], [TriggerType],
    [TriggerParam] and [WaypointTurnMode] left unset. *)
Definition no_overrides_mission : Waylines.t :=
  mission "Sample Mission" 50%float 5%float
    (mk_slice [waypoint 39.9042%float 116.4074%float 50%float 0%float ""]).

(** Latitude 200 and height 3000 on one waypoint, as in the spec. *)
Definition two_violations_mission : Waylines.t :=
  mission "Sample Mission" 50%float 5%float
    (mk_slice [waypoint 200%float 116.4074%float 3000%float 5%float
                 "reachPoint"]).

(** ** The action encoder *)

(** Modelled from the spec: the action encoder is not in
    [converter_schema.go].  Per the spec (Action Encoder, External
    Interfaces) each action type has a schema of required and optional
    parameters; the encoder looks the schema up by the type tag, fails on an
    unsupported type, on a parameter the type does not recognise, on a
    missing required parameter and on an invalid value of a present
    parameter, applies the declared default of an absent optional parameter,
    and gives the action the next unused identifier. *)
Inductive EncodingError : Type :=
| UnsupportedActionType (type : string)
| MissingParameter (type param : string)
| InvalidParameter (type param : string) (value : any).

Record ParamSchema : Type := mkParam {
  param_name : string;
  param_required : bool;
  param_valid : any -> bool;
  param_default : option any
}.

Definition non_negative_integer (v : any) : bool :=
  match v with AInt n => 0 <=? n | _ => false end.

Definition number (v : any) : bool :=
  match v with AInt _ | AFloat _ => true | _ => false end.

Definition positive (v : any) : bool :=
  match v with
  | AInt n => 0 <? n
  | AFloat f => PrimFloat.ltb 0%float f
  | _ => false
  end.

Definition one_of (vals : list string) (v : any) : bool :=
  match v with AString s => existsb (String.eqb s) vals | _ => false end.

Definition angle_modes : list string := ["absoluteAngle"; "relativeAngle"].

(** Modelled from the spec: the action vocabulary of the External Interfaces
    section. *)
Definition action_schema (type : string) : option (list ParamSchema) :=
  if String.eqb type "takePhoto" then
    Some [mkParam "payloadPositionIndex" false non_negative_integer
            (Some (AInt 0))]
  else if String.eqb type "gimbalRotate" then
    Some [mkParam "payloadPositionIndex" true non_negative_integer None;
          mkParam "gimbalRotateMode" true (one_of angle_modes) None;
          mkParam "gimbalPitchRotateAngle" false number None;
          mkParam "gimbalYawRotateAngle" false number None;
          mkParam "gimbalRotateTimeInSeconds" false positive None]
  else if String.eqb type "aircraftYaw" then
    Some [mkParam "aircraftYawRotateMode" true (one_of angle_modes) None;
          mkParam "aircraftYawRotateAngle" true number None]
  else if String.eqb type "hover" then
    Some [mkParam "hoverTime" true positive None]
  else None.

(** Modelled from the spec: the parameters of which a request must carry at
    least one ([gimbalRotate]: the pitch or the yaw angle). *)
Definition one_of_required (type : string) : list string :=
  if String.eqb type "gimbalRotate"
  then ["gimbalPitchRotateAngle"; "gimbalYawRotateAngle"]
  else [].

(** Modelled from the spec: a parameter of the request that the schema of its
    type does not recognise, if there is one (the first in the listing of
    the map; the spec does not say which one is named when there are
    several). *)
Definition unrecognized (schema : list ParamSchema) (params : gmap string any)
    : option (string * any) :=
  head (filter (fun kv => kv.1 ∉ param_name <$> schema) (map_to_list params)).

(** A concrete action: its mission-scoped identifier, its command and the
    parameters of the command. *)
Record Action : Type := mkAction {
  actionId : nat;
  actionActuatorFunc : string;
  actionActuatorFuncParam : gmap string any
}.

(** A trigger and the actions it fires. *)
Record ActionGroup : Type := mkActionGroup {
  actionTriggerType : string;
  actionTriggerParam : float64;
  actions : list Action
}.

(** Modelled from the spec: the parameters of one request read against the
    schema of its type. *)
Fixpoint encode_params (type : string) (schema : list ParamSchema)
    (params : gmap string any) : EncodingError + gmap string any :=
  match schema with
  | [] => inr ∅
  | ps :: schema =>
      match params !! param_name ps with
      | None =>
          if param_required ps
          then inl (MissingParameter type (param_name ps))
          else
            match encode_params type schema params with
            | inl err => inl err
            | inr out =>
                inr (match param_default ps with
                     | Some d => <[param_name ps := d]> out
                     | None => out
                     end)
            end
      | Some v =>
          if param_valid ps v
          then
            match encode_params type schema params with
            | inl err => inl err
            | inr out => inr (<[param_name ps := v]> out)
            end
          else inl (InvalidParameter type (param_name ps) v)
      end
  end.

(** Modelled from the spec: one request encoded with the identifier [next];
    the identifier after it comes back with the action. *)
Definition encode_action (next : nat) (req : ActionRequest.t)
    : EncodingError + (Action * nat) :=
  let type := ActionRequest.Type_ req in
  let given := ActionRequest.Params req in
  match action_schema type with
  | None => inl (UnsupportedActionType type)
  | Some schema =>
      match unrecognized schema given with
      | Some (name, value) => inl (InvalidParameter type name value)
      | None =>
          match encode_params type schema given with
          | inl err => inl err
          | inr params =>
              match one_of_required type with
              | [] => inr (mkAction next type params, S next)
              | name :: names =>
                  if existsb (fun n => bool_decide (is_Some (given !! n)))
                       (name :: names)
                  then inr (mkAction next type params, S next)
                  else inl (MissingParameter type name)
              end
          end
      end
  end.


(** Modelled from the spec: the requests of one waypoint encoded in order,
    the identifier counter threaded through. *)
Fixpoint encode_actions (next : nat) (reqs : list ActionRequest.t)
    : EncodingError + (list Action * nat) :=
  match reqs with
  | [] => inr ([], next)
  | req :: reqs =>
      match encode_action next req with
      | inl err => inl err
      | inr (a, next) =>
          match encode_actions next reqs with
          | inl err => inl err
          | inr (acts, next) => inr (a :: acts, next)
          end
      end
  end.

(** Modelled from the spec: the action groups of a waypoint, at most one: all
    its actions under the waypoint's trigger, [reachPoint] when it declares
    none. *)
Definition encode_waypoint (next : nat) (p : WaylinesWaypoint.t)
    : EncodingError + (list ActionGroup * nat) :=
  match encode_actions next (elems (WaylinesWaypoint.Actions p)) with
  | inl err => inl err
  | inr ([], next) => inr ([], next)
  | inr (acts, next) =>
      let trigger :=
        if String.eqb (WaylinesWaypoint.TriggerType p) "" then "reachPoint"
        else WaylinesWaypoint.TriggerType p in
      inr ([mkActionGroup trigger (WaylinesWaypoint.TriggerParam p) acts],
           next)
  end.

(** ** What counts as a violation *)

(** The error [e] is a violation of [w]: a failing tag of a field of the
    [Waylines], of its [Waypoints] slice, of a field of the waypoint at an
    existing index, an error of the action request at an existing index, or a
    failing photo setting. *)
Definition is_violation (registry : string -> FieldValue -> bool)
    (validate_ActionRequest : ActionRequest.t -> list FieldError)
    (w : Waylines.t) (e : FieldError) : Prop :=
  (exists name cts v t,
      Plain name cts v ∈ Waylines_fields registry validate_ActionRequest w
      /\ run_tags registry cts v = Failed t
      /\ e = mkFieldError (root "Waylines" ./ name) t)
  \/ (exists t,
      run_tags registry [Required; Min 1; Dive]
        (KSlice (IsNil (Waylines.Waypoints w)) (len (Waylines.Waypoints w)))
      = Failed t
      /\ e = mkFieldError (root "Waylines" ./ "Waypoints") t)
  \/ (exists i p name cts v t,
      elems (Waylines.Waypoints w) !! i = Some p
      /\ Plain name cts v ∈ WaylinesWaypoint_fields validate_ActionRequest p
      /\ run_tags registry cts v = Failed t
      /\ e = mkFieldError (root "Waylines" ./ "Waypoints" .# i ./ name) t)
  \/ (exists i p j a e0,
      elems (Waylines.Waypoints w) !! i = Some p
      /\ elems (WaylinesWaypoint.Actions p) !! j = Some a
      /\ e0 ∈ validate_ActionRequest a
      /\ e = relocate
               (root "Waylines" ./ "Waypoints" .# i ./ "Actions" .# j) e0)
  \/ (exists k x t,
      elems (Waylines.PhotoSettings w) !! k = Some x
      /\ run_tags registry [Oneof ["wide"; "zoom"; "ir"; "vision"]]
           (KString x) = Failed t
      /\ e = mkFieldError (root "Waylines" ./ "PhotoSettings" .# k) t).

(** A mission with photo settings, one of them not in the list. *)
Definition photo_mission : Waylines.t :=
  {| Waylines.Name := "Sample Mission";
     Waylines.Description := "";
     Waylines.DroneModel := "M3TD";
     Waylines.PayloadModel := "M3TD";
     Waylines.PayloadPositionIndex := 0;
     Waylines.TemplateType := "waypoint";
     Waylines.GlobalHeight := 50%float;
     Waylines.GlobalSpeed := 5%float;
     Waylines.PhotoSettings := mk_slice ["wide"; "thermal"];
     Waylines.UseLowLightSmart := false;
     Waylines.FinishAction := "goHome";
     Waylines.HeightType := "relativeToStartPoint";
     Waylines.ClimbMode := "vertical";
     Waylines.SafeHeight := 50%float;
     Waylines.GlobalRTHHeight := 120%float;
     Waylines.AircraftYawMode := "followWayline";
     Waylines.GimbalPitchMode := "usePointSetting";
     Waylines.GlobalTransitionalSpeed := 10%float;
     Waylines.TakeOffRefPointLatitude := 0%float;
     Waylines.TakeOffRefPointLongitude := 0%float;
     Waylines.TakeOffRefPointHeight := 0%float;
     Waylines.TakeOffRefPointAGLHeight := None;
     Waylines.GlobalWaypointTurnMode := "";
     Waylines.GlobalUseStraightLine := None;
     Waylines.GlobalTurnDampingDist := 0%float;
     Waylines.Waypoints := mk_slice
       [waypoint 39.9042%float 116.4074%float 50%float 5%float
          "reachPoint"] |}.

(** ** The survey mission of the README *)

(** [float64(n)] for an [int] [n]. *)
Definition float64_of_int (n : Z) : float64 := Z_to_float64 n.

(** The constants the README lists. *)
Definition DroneModelMatrice3TD : DroneModel := "M3TD".
Definition PayloadModelM3TD : PayloadModel := "M3TD".

(** Modelled from the spec: the constant [TemplateTypeWaypoint] is missing;
    the README's JSON mission gives the template type as [waypoint]. *)
Definition TemplateTypeWaypoint : TemplateType := "waypoint".

(** The waypoint the loop body of [CreateSurveyMission] appends at row [i]
    and column [j]. *)
Definition survey_waypoint (centerLat centerLon width height altitude : float64)
    (rows cols i j : Z) : WaylinesWaypoint.t :=
  let lat :=
    (centerLat + float64_of_int (i - rows ÷ 2) * height
                 / float64_of_int rows)%float in
  let lon :=
    (centerLon + float64_of_int (j - cols ÷ 2) * width
                 / float64_of_int cols)%float in
  {| WaylinesWaypoint.Latitude := lat;
     WaylinesWaypoint.Longitude := lon;
     WaylinesWaypoint.Height := altitude;
     WaylinesWaypoint.Speed := 0%float;
     WaylinesWaypoint.TriggerType := "";
     WaylinesWaypoint.TriggerParam := 0%float;
     WaylinesWaypoint.WaypointTurnMode := "";
     WaylinesWaypoint.UseStraightLine := None;
     WaylinesWaypoint.TurnDampingDist := 0%float;
     WaylinesWaypoint.Actions :=
       mk_slice
         [ActionRequest.mk "takePhoto" {[ "payloadPositionIndex" := AInt 0 ]}]
  |}.

(** [func CreateSurveyMission(centerLat, centerLon, width, height float64,
    altitude float64) *wpml.Waylines] of the README: the two loops append to
    [waypoints], row by row. *)
Definition CreateSurveyMission
    (centerLat centerLon width height altitude : float64) : Waylines.t :=
  let rows := 10 in
  let cols := 10 in
  let waypoints :=
    foldl (fun waypoints i =>
             foldl (fun waypoints j =>
                      waypoints ++
                      [survey_waypoint centerLat centerLon width height
                         altitude rows cols i j])
                   waypoints (seqZ 0 cols))
          [] (seqZ 0 rows) in
  {| Waylines.Name := "Survey Mission";
     Waylines.Description := "";
     Waylines.DroneModel := DroneModelMatrice3TD;
     Waylines.PayloadModel := PayloadModelM3TD;
     Waylines.PayloadPositionIndex := 0;
     Waylines.TemplateType := TemplateTypeWaypoint;
     Waylines.GlobalHeight := altitude;
     Waylines.GlobalSpeed := 5%float;
     Waylines.PhotoSettings := nil_slice;
     Waylines.UseLowLightSmart := false;
     Waylines.FinishAction := "";
     Waylines.HeightType := "";
     Waylines.ClimbMode := "";
     Waylines.SafeHeight := 0%float;
     Waylines.GlobalRTHHeight := 0%float;
     Waylines.AircraftYawMode := "";
     Waylines.GimbalPitchMode := "";
     Waylines.GlobalTransitionalSpeed := 0%float;
     Waylines.TakeOffRefPointLatitude := 0%float;
     Waylines.TakeOffRefPointLongitude := 0%float;
     Waylines.TakeOffRefPointHeight := 0%float;
     Waylines.TakeOffRefPointAGLHeight := None;
     Waylines.GlobalWaypointTurnMode := "";
     Waylines.GlobalUseStraightLine := None;
     Waylines.GlobalTurnDampingDist := 0%float;
     Waylines.Waypoints := mk_slice waypoints |}.

(** ** The missions Validate accepts *)

(** The waypoint passes every tag of [WaylinesWaypoint], and the walk over
    each of its action requests finds nothing. *)
Definition ValidWaypoint
    (validate_ActionRequest : ActionRequest.t -> list FieldError)
    (p : WaylinesWaypoint.t) : Prop :=
  (PrimFloat.eqb (WaylinesWaypoint.Latitude p) 0%float = false
   /\ within (-90) 90 (WaylinesWaypoint.Latitude p) = true)
  /\ (PrimFloat.eqb (WaylinesWaypoint.Longitude p) 0%float = false
   /\ within (-180) 180 (WaylinesWaypoint.Longitude p) = true)
  /\ (PrimFloat.eqb (WaylinesWaypoint.Height p) 0%float = false
   /\ within 5 500 (WaylinesWaypoint.Height p) = true)
  /\ within 1 15 (WaylinesWaypoint.Speed p) = true
  /\ WaylinesWaypoint.TriggerType p ∈ trigger_types
  /\ PrimFloat.leb 0%float (WaylinesWaypoint.TriggerParam p) = true
  /\ (WaylinesWaypoint.WaypointTurnMode p = ""
      \/ WaylinesWaypoint.WaypointTurnMode p ∈ turn_modes)
  /\ PrimFloat.leb 0%float (WaylinesWaypoint.TurnDampingDist p) = true
  /\ forall a, a ∈ elems (WaylinesWaypoint.Actions p) ->
       validate_ActionRequest a = [].

(** The mission passes every tag of [Waylines], and each of its waypoints is
    valid. *)
Definition ValidWaylines (registry : string -> FieldValue -> bool)
    (validate_ActionRequest : ActionRequest.t -> list FieldError)
    (w : Waylines.t) : Prop :=
  (1 <= utf8.RuneCountInString (Waylines.Name w) <= 100)%nat
  /\ (utf8.RuneCountInString (Waylines.Description w) <= 500)%nat
  /\ (Waylines.DroneModel w <> ""
      /\ registry "drone_model" (KString (Waylines.DroneModel w)) = true)
  /\ (Waylines.PayloadModel w <> ""
      /\ registry "payload_model" (KString (Waylines.PayloadModel w)) = true)
  /\ registry "payload_position" (KInt (Waylines.PayloadPositionIndex w))
     = true
  /\ Waylines.TemplateType w <> ""
  /\ within 5 1500 (Waylines.GlobalHeight w) = true
  /\ within 1 15 (Waylines.GlobalSpeed w) = true
  /\ (forall x, x ∈ elems (Waylines.PhotoSettings w) ->
        x ∈ ["wide"; "zoom"; "ir"; "vision"])
  /\ Waylines.ClimbMode w ∈ ["vertical"; "inclined"]
  /\ within 20 200 (Waylines.SafeHeight w) = true
  /\ within 20 1500 (Waylines.GlobalRTHHeight w) = true
  /\ Waylines.AircraftYawMode w
     ∈ ["followWayline"; "followRoute"; "manual"; "free"]
  /\ Waylines.GimbalPitchMode w ∈ ["usePointSetting"; "manual"; "free"]
  /\ within 1 15 (Waylines.GlobalTransitionalSpeed w) = true
  /\ within (-90) 90 (Waylines.TakeOffRefPointLatitude w) = true
  /\ within (-180) 180 (Waylines.TakeOffRefPointLongitude w) = true
  /\ (Waylines.GlobalWaypointTurnMode w = ""
      \/ Waylines.GlobalWaypointTurnMode w ∈ turn_modes)
  /\ PrimFloat.leb 0%float (Waylines.GlobalTurnDampingDist w) = true
  /\ ((1 <= len (Waylines.Waypoints w))%nat
      /\ forall p, p ∈ elems (Waylines.Waypoints w) ->
           ValidWaypoint validate_ActionRequest p).

(** ** The constraints the struct tags declare *)

(** The value of the field at namespace [ns] violates the constraint its
    [validate] tag declares: a name that is empty or longer than 100
    characters, a description longer than 500, a model that is empty or that
    the registered function rejects, a number outside its range, a mode that
    is not one of its values, no waypoint, an action request the walk finds
    an error in.  For the optional fields the unset (zero or empty) value is
    left aside. *)
Inductive Violated (registry : string -> FieldValue -> bool)
    (validate_ActionRequest : ActionRequest.t -> list FieldError)
    (w : Waylines.t) : path -> Prop :=
| V_Name :
    (utf8.RuneCountInString (Waylines.Name w) < 1
     \/ 100 < utf8.RuneCountInString (Waylines.Name w))%nat ->
    Violated registry validate_ActionRequest w (root "Waylines" ./ "Name")
| V_Description :
    (500 < utf8.RuneCountInString (Waylines.Description w))%nat ->
    Violated registry validate_ActionRequest w
      (root "Waylines" ./ "Description")
| V_DroneModel :
    Waylines.DroneModel w = ""
    \/ registry "drone_model" (KString (Waylines.DroneModel w)) = false ->
    Violated registry validate_ActionRequest w
      (root "Waylines" ./ "DroneModel")
| V_PayloadModel :
    Waylines.PayloadModel w = ""
    \/ registry "payload_model" (KString (Waylines.PayloadModel w)) = false ->
    Violated registry validate_ActionRequest w
      (root "Waylines" ./ "PayloadModel")
| V_PayloadPositionIndex :
    registry "payload_position" (KInt (Waylines.PayloadPositionIndex w))
    = false ->
    Violated registry validate_ActionRequest w
      (root "Waylines" ./ "PayloadPositionIndex")
| V_TemplateType :
    Waylines.TemplateType w = "" ->
    Violated registry validate_ActionRequest w
      (root "Waylines" ./ "TemplateType")
| V_GlobalHeight :
    PrimFloat.eqb (Waylines.GlobalHeight w) 0%float = false ->
    within 5 1500 (Waylines.GlobalHeight w) = false ->
    Violated registry validate_ActionRequest w
      (root "Waylines" ./ "GlobalHeight")
| V_GlobalSpeed :
    PrimFloat.eqb (Waylines.GlobalSpeed w) 0%float = false ->
    within 1 15 (Waylines.GlobalSpeed w) = false ->
    Violated registry validate_ActionRequest w
      (root "Waylines" ./ "GlobalSpeed")
| V_PhotoSettings k x :
    elems (Waylines.PhotoSettings w) !! k = Some x ->
    x ∉ ["wide"; "zoom"; "ir"; "vision"] ->
    Violated registry validate_ActionRequest w
      (root "Waylines" ./ "PhotoSettings" .# k)
| V_ClimbMode :
    Waylines.ClimbMode w <> "" ->
    Waylines.ClimbMode w ∉ ["vertical"; "inclined"] ->
    Violated registry validate_ActionRequest w
      (root "Waylines" ./ "ClimbMode")
| V_SafeHeight :
    PrimFloat.eqb (Waylines.SafeHeight w) 0%float = false ->
    within 20 200 (Waylines.SafeHeight w) = false ->
    Violated registry validate_ActionRequest w
      (root "Waylines" ./ "SafeHeight")
| V_GlobalRTHHeight :
    PrimFloat.eqb (Waylines.GlobalRTHHeight w) 0%float = false ->
    within 20 1500 (Waylines.GlobalRTHHeight w) = false ->
    Violated registry validate_ActionRequest w
      (root "Waylines" ./ "GlobalRTHHeight")
| V_AircraftYawMode :
    Waylines.AircraftYawMode w <> "" ->
    Waylines.AircraftYawMode w
      ∉ ["followWayline"; "followRoute"; "manual"; "free"] ->
    Violated registry validate_ActionRequest w
      (root "Waylines" ./ "AircraftYawMode")
| V_GimbalPitchMode :
    Waylines.GimbalPitchMode w <> "" ->
    Waylines.GimbalPitchMode w ∉ ["usePointSetting"; "manual"; "free"] ->
    Violated registry validate_ActionRequest w
      (root "Waylines" ./ "GimbalPitchMode")
| V_GlobalTransitionalSpeed :
    PrimFloat.eqb (Waylines.GlobalTransitionalSpeed w) 0%float = false ->
    within 1 15 (Waylines.GlobalTransitionalSpeed w) = false ->
    Violated registry validate_ActionRequest w
      (root "Waylines" ./ "GlobalTransitionalSpeed")
| V_TakeOffRefPointLatitude :
    within (-90) 90 (Waylines.TakeOffRefPointLatitude w) = false ->
    Violated registry validate_ActionRequest w
      (root "Waylines" ./ "TakeOffRefPointLatitude")
| V_TakeOffRefPointLongitude :
    within (-180) 180 (Waylines.TakeOffRefPointLongitude w) = false ->
    Violated registry validate_ActionRequest w
      (root "Waylines" ./ "TakeOffRefPointLongitude")
| V_GlobalWaypointTurnMode :
    Waylines.GlobalWaypointTurnMode w <> "" ->
    Waylines.GlobalWaypointTurnMode w ∉ turn_modes ->
    Violated registry validate_ActionRequest w
      (root "Waylines" ./ "GlobalWaypointTurnMode")
| V_GlobalTurnDampingDist :
    PrimFloat.leb 0%float (Waylines.GlobalTurnDampingDist w) = false ->
    Violated registry validate_ActionRequest w
      (root "Waylines" ./ "GlobalTurnDampingDist")
| V_Waypoints :
    len (Waylines.Waypoints w) = 0%nat ->
    Violated registry validate_ActionRequest w
      (root "Waylines" ./ "Waypoints")
| V_Latitude i p :
    elems (Waylines.Waypoints w) !! i = Some p ->
    within (-90) 90 (WaylinesWaypoint.Latitude p) = false ->
    Violated registry validate_ActionRequest w
      (root "Waylines" ./ "Waypoints" .# i ./ "Latitude")
| V_Longitude i p :
    elems (Waylines.Waypoints w) !! i = Some p ->
    within (-180) 180 (WaylinesWaypoint.Longitude p) = false ->
    Violated registry validate_ActionRequest w
      (root "Waylines" ./ "Waypoints" .# i ./ "Longitude")
| V_Height i p :
    elems (Waylines.Waypoints w) !! i = Some p ->
    within 5 500 (WaylinesWaypoint.Height p) = false ->
    Violated registry validate_ActionRequest w
      (root "Waylines" ./ "Waypoints" .# i ./ "Height")
| V_Speed i p :
    elems (Waylines.Waypoints w) !! i = Some p ->
    PrimFloat.eqb (WaylinesWaypoint.Speed p) 0%float = false ->
    within 1 15 (WaylinesWaypoint.Speed p) = false ->
    Violated registry validate_ActionRequest w
      (root "Waylines" ./ "Waypoints" .# i ./ "Speed")
| V_TriggerType i p :
    elems (Waylines.Waypoints w) !! i = Some p ->
    WaylinesWaypoint.TriggerType p <> "" ->
    WaylinesWaypoint.TriggerType p ∉ trigger_types ->
    Violated registry validate_ActionRequest w
      (root "Waylines" ./ "Waypoints" .# i ./ "TriggerType")
| V_TriggerParam i p :
    elems (Waylines.Waypoints w) !! i = Some p ->
    PrimFloat.leb 0%float (WaylinesWaypoint.TriggerParam p) = false ->
    Violated registry validate_ActionRequest w
      (root "Waylines" ./ "Waypoints" .# i ./ "TriggerParam")
| V_WaypointTurnMode i p :
    elems (Waylines.Waypoints w) !! i = Some p ->
    WaylinesWaypoint.WaypointTurnMode p <> "" ->
    WaylinesWaypoint.WaypointTurnMode p ∉ turn_modes ->
    Violated registry validate_ActionRequest w
      (root "Waylines" ./ "Waypoints" .# i ./ "WaypointTurnMode")
| V_TurnDampingDist i p :
    elems (Waylines.Waypoints w) !! i = Some p ->
    PrimFloat.leb 0%float (WaylinesWaypoint.TurnDampingDist p) = false ->
    Violated registry validate_ActionRequest w
      (root "Waylines" ./ "Waypoints" .# i ./ "TurnDampingDist")
| V_Action i p j a e :
    elems (Waylines.Waypoints w) !! i = Some p ->
    elems (WaylinesWaypoint.Actions p) !! j = Some a ->
    e ∈ validate_ActionRequest a ->
    Violated registry validate_ActionRequest w
      (Namespace e
       ++ root "Waylines" ./ "Waypoints" .# i ./ "Actions" .# j).

(** Modelled from the spec: the finish actions of the External Interfaces
    section, which the spec has the validator check membership in. *)
Definition finish_actions : list string := ["goHome"; "autoLand"; "noAction"].

(** A mission that breaks two of the constraints the spec declares: latitude
    200 and a finish action that is none of the three. *)
Definition two_declared_violations_mission : Waylines.t :=
  {| Waylines.Name := "Sample Mission";
     Waylines.Description := "";
     Waylines.DroneModel := "M3TD";
     Waylines.PayloadModel := "M3TD";
     Waylines.PayloadPositionIndex := 0;
     Waylines.TemplateType := "waypoint";
     Waylines.GlobalHeight := 50%float;
     Waylines.GlobalSpeed := 5%float;
     Waylines.PhotoSettings := nil_slice;
     Waylines.UseLowLightSmart := false;
     Waylines.FinishAction := "selfDestruct";
     Waylines.HeightType := "relativeToStartPoint";
     Waylines.ClimbMode := "vertical";
     Waylines.SafeHeight := 50%float;
     Waylines.GlobalRTHHeight := 120%float;
     Waylines.AircraftYawMode := "followWayline";
     Waylines.GimbalPitchMode := "usePointSetting";
     Waylines.GlobalTransitionalSpeed := 10%float;
     Waylines.TakeOffRefPointLatitude := 0%float;
     Waylines.TakeOffRefPointLongitude := 0%float;
     Waylines.TakeOffRefPointHeight := 0%float;
     Waylines.TakeOffRefPointAGLHeight := None;
     Waylines.GlobalWaypointTurnMode := "";
     Waylines.GlobalUseStraightLine := None;
     Waylines.GlobalTurnDampingDist := 0%float;
     Waylines.Waypoints := mk_slice
       [waypoint 200%float 116.4074%float 50%float 5%float "reachPoint"] |}.

(** * Properties *)

(** ** ApplyDefaults *)

Lemma others_unchanged_refl (w : Waylines.t) : others_unchanged w w.
Proof. repeat split. Qed.

Lemma others_unchanged_set_HeightType (h : HeightMode) (w : Waylines.t) :
  others_unchanged w (Waylines.set_HeightType h w).
Proof. repeat split. Qed.

Lemma ApplyDefaults_after (w : Waylines.t) :
  after ApplyDefaults w =
  if String.eqb (Waylines.HeightType w) ""
  then Waylines.set_HeightType HeightModeRelativeToStartPoint w
  else w.
Proof.
  unfold after, ApplyDefaults, bind, load.
  destruct (String.eqb (Waylines.HeightType w) ""); reflexivity.
Qed.

(** C9: [ApplyDefaults] sets [HeightType] to [relativeToStartPoint] when it was
    the empty string, leaves it as it was otherwise, and changes no other
    field of the receiver. *)
Theorem ApplyDefaults_sets_only_HeightType (w : Waylines.t) :
  let w' := after ApplyDefaults w in
  (Waylines.HeightType w = "" ->
     Waylines.HeightType w' = "relativeToStartPoint")
  /\ (Waylines.HeightType w <> "" ->
     Waylines.HeightType w' = Waylines.HeightType w)
  /\ others_unchanged w w'.
Proof.
  cbv zeta. rewrite ApplyDefaults_after.
  destruct (String.eqb_spec (Waylines.HeightType w) "") as [He | Hne].
  - split; [reflexivity |]. split; [congruence |].
    apply others_unchanged_set_HeightType.
  - split; [congruence |]. split; [reflexivity |].
    apply others_unchanged_refl.
Qed.

(** C10: [ApplyDefaults] is idempotent: a second call leaves the receiver as
    the first call left it. *)
Theorem ApplyDefaults_idempotent (w : Waylines.t) :
  after ApplyDefaults (after ApplyDefaults w) = after ApplyDefaults w.
Proof.
  rewrite (ApplyDefaults_after w).
  destruct (String.eqb_spec (Waylines.HeightType w) "") as [He | Hne].
  - rewrite ApplyDefaults_after. reflexivity.
  - rewrite ApplyDefaults_after.
    destruct (String.eqb_spec (Waylines.HeightType w) ""); [contradiction |].
    reflexivity.
Qed.

(** ** The walk of the engine *)

Lemma under_refl (e : FieldError) : under (Namespace e) e.
Proof. exists []. reflexivity. Qed.

Lemma under_cons (x : PathElem) (ns : path) (e : FieldError) :
  under (x :: ns) e -> under ns e.
Proof.
  intros [rest H]. exists (rest ++ [x]). rewrite H, <- app_assoc. reflexivity.
Qed.

Lemma field_by_name (fs : list Field) (f g : Field) :
  NoDup (field_name <$> fs) -> f ∈ fs -> g ∈ fs ->
  field_name f = field_name g -> f = g.
Proof.
  induction fs as [| h fs IH]; intros Hnd Hf Hg Hn.
  - inversion Hf.
  - rewrite fmap_cons in Hnd. apply NoDup_cons in Hnd as [Hh Hnd].
    apply elem_of_cons in Hf as [-> | Hf];
      apply elem_of_cons in Hg as [-> | Hg].
    + reflexivity.
    + exfalso. apply Hh. rewrite Hn. apply list_elem_of_fmap. eauto.
    + exfalso. apply Hh. rewrite <- Hn. apply list_elem_of_fmap. eauto.
    + auto.
Qed.

Section Walk.
Variable registry : string -> FieldValue -> bool.
Variable validate_ActionRequest : ActionRequest.t -> list FieldError.


Lemma elem_of_traverseField ns name cts v e :
  e ∈ traverseField registry ns name cts v <->
  exists t,
    run_tags registry cts v = Failed t /\ e = mkFieldError (ns ./ name) t.
Proof.
  unfold traverseField. destruct (run_tags registry cts v) as [| t | rest].
  - split; [intros H; inversion H | intros (t & H & _); discriminate].
  - rewrite list_elem_of_singleton. split.
    + intros ->. eauto.
    + intros (t' & [= ->] & ->). reflexivity.
  - split; [intros H; inversion H | intros (t & H & _); discriminate].
Qed.

Lemma elem_of_traverseSlice {A} ns name cts (s : slice A) elem e :
  e ∈ traverseSlice registry ns name cts s elem <->
  (exists t, run_tags registry cts (KSlice (IsNil s) (len s)) = Failed t
             /\ e = mkFieldError (ns ./ name) t)
  \/ (exists rest i x,
        run_tags registry cts (KSlice (IsNil s) (len s)) = Diving rest
             /\ elems s !! i = Some x /\ e ∈ elem (ns ./ name .# i) rest x).
Proof.
  unfold traverseSlice.
  destruct (run_tags registry cts (KSlice (IsNil s) (len s))) as [| t | rest].
  - split; [intros H; inversion H |].
    intros [(t & H & _) | (r & i & x & H & _)]; discriminate.
  - rewrite list_elem_of_singleton. split.
    + intros ->. left. eauto.
    + intros [(t' & [= ->] & ->) | (r & i & x & H & _)];
        [reflexivity | discriminate].
  - rewrite list_elem_of_join. split.
    + intros (l & He & Hl).
      apply elem_of_lookup_imap in Hl as (i & x & -> & Hx).
      right. eauto 6.
    + intros [(t & H & _) | (r & i & x & [= <-] & Hx & He)]; [discriminate |].
      eexists. split; [exact He |]. apply elem_of_lookup_imap. eauto.
Qed.

Lemma elem_of_validateStruct ns fs e :
  e ∈ validateStruct registry ns fs <->
  exists f, f ∈ fs /\ e ∈ traverse registry ns f.
Proof.
  unfold validateStruct. rewrite list_elem_of_bind.
  split; intros (f & H1 & H2); eauto.
Qed.

Lemma traverse_under ns f e :
  well_placed f -> e ∈ traverse registry ns f -> under (ns ./ field_name f) e.
Proof.
  destruct f as [name cts v | A name cts s elem]; simpl; intros Hwp He.
  - apply elem_of_traverseField in He as (t & _ & ->). apply under_refl.
  - apply elem_of_traverseSlice in He
      as [(t & _ & ->) | (rest & i & x & _ & _ & He)].
    + apply under_refl.
    + apply Hwp in He. eapply under_cons, He.
Qed.

Lemma validateStruct_under ns fs e :
  Forall well_placed fs -> e ∈ validateStruct registry ns fs -> under ns e.
Proof.
  intros Hwp He. apply elem_of_validateStruct in He as (f & Hf & He).
  rewrite Forall_forall in Hwp.
  eapply under_cons, traverse_under; [| exact He]. auto.
Qed.

(** A failing plain field is reported under its own name. *)
Lemma plain_reported ns fs name cts v t :
  Plain name cts v ∈ fs -> run_tags registry cts v = Failed t ->
  mkFieldError (ns ./ name) t ∈ validateStruct registry ns fs.
Proof.
  intros Hf Ht. apply elem_of_validateStruct. eexists. split; [exact Hf |].
  simpl. apply elem_of_traverseField. eauto.
Qed.

(** What a slice field yields is part of what the struct yields. *)
Lemma sliced_reported {A} ns fs name cts (s : slice A) elem e :
  Sliced name cts s elem ∈ fs ->
  e ∈ traverseSlice registry ns name cts s elem ->
  e ∈ validateStruct registry ns fs.
Proof.
  intros Hf He. apply elem_of_validateStruct. eexists. split; [exact Hf |].
  exact He.
Qed.

(** The errors at or below a field's name come from that field alone. *)
Lemma validateStruct_under_field ns fs f e :
  Forall well_placed fs -> NoDup (field_name <$> fs) -> f ∈ fs ->
  e ∈ validateStruct registry ns fs -> under (ns ./ field_name f) e ->
  e ∈ traverse registry ns f.
Proof.
  intros Hwp Hnd Hf He [r1 H1].
  apply elem_of_validateStruct in He as (g & Hg & He).
  rewrite Forall_forall in Hwp.
  destruct (traverse_under ns g e (Hwp g Hg) He) as [r2 H2].
  rewrite H1 in H2. apply app_inj_2 in H2 as [_ [= Hn]]; [| reflexivity].
  rewrite (field_by_name fs f g Hnd Hf Hg Hn). exact He.
Qed.

Lemma plain_reports_iff ns fs name cts v :
  Forall well_placed fs -> NoDup (field_name <$> fs) ->
  Plain name cts v ∈ fs ->
  reports (validateStruct registry ns fs) (ns ./ name) <->
  exists t, run_tags registry cts v = Failed t.
Proof.
  intros Hwp Hnd Hf. split.
  - intros (e & He & Hns).
    apply (validateStruct_under_field ns fs _ e Hwp Hnd Hf) in He.
    + apply elem_of_traverseField in He as (t & Ht & _). eauto.
    + exists []. exact Hns.
  - intros (t & Ht). eexists. split; [eapply plain_reported; eauto |].
    reflexivity.
Qed.

Lemma dive_string_under ns cts x e :
  e ∈ dive_string registry ns cts x -> under ns e.
Proof.
  unfold dive_string. destruct (run_tags registry cts (KString x));
    intros He; try (inversion He; fail).
  apply list_elem_of_singleton in He as ->. apply under_refl.
Qed.

Lemma dive_ActionRequest_under ns cts a e :
  e ∈ dive_ActionRequest validate_ActionRequest ns cts a -> under ns e.
Proof.
  unfold dive_ActionRequest. intros He.
  apply list_elem_of_fmap in He as (e0 & -> & _). eexists. reflexivity.
Qed.

Lemma WaylinesWaypoint_fields_well_placed p :
  Forall well_placed (WaylinesWaypoint_fields validate_ActionRequest p).
Proof.
  unfold WaylinesWaypoint_fields. repeat constructor.
  intros ns cts x e. apply dive_ActionRequest_under.
Qed.

Lemma WaylinesWaypoint_fields_names p :
  NoDup (field_name <$> WaylinesWaypoint_fields validate_ActionRequest p).
Proof. apply (bool_decide_unpack _). vm_compute. exact I. Qed.

Lemma dive_WaylinesWaypoint_under ns cts p e :
  e ∈ dive_WaylinesWaypoint registry validate_ActionRequest ns cts p ->
  under ns e.
Proof.
  apply validateStruct_under, WaylinesWaypoint_fields_well_placed.
Qed.

Lemma Waylines_fields_well_placed w :
  Forall well_placed (Waylines_fields registry validate_ActionRequest w).
Proof.
  unfold Waylines_fields. repeat constructor.
  - intros ns cts x e. apply dive_string_under.
  - intros ns cts x e. apply dive_WaylinesWaypoint_under.
Qed.

Lemma Waylines_fields_names w :
  NoDup (field_name <$> Waylines_fields registry validate_ActionRequest w).
Proof. apply (bool_decide_unpack _). vm_compute. exact I. Qed.

Lemma errors_of_ValidateStruct w :
  errors_of (ValidateStruct registry validate_ActionRequest w) =
  validateStruct registry (root "Waylines")
    (Waylines_fields registry validate_ActionRequest w).
Proof.
  unfold ValidateStruct.
  destruct (validateStruct _ _ _); reflexivity.
Qed.

Lemma Validate_result w :
  result (Validate registry validate_ActionRequest) w =
  ValidateStruct registry validate_ActionRequest w.
Proof. reflexivity. Qed.

(** A violation makes the returned error non-nil. *)
Lemma reports_not_nil (e : error) ns : reports (errors_of e) ns -> e <> None.
Proof. intros (x & Hx & _) ->. inversion Hx. Qed.

End Walk.

(** ** Validate *)

Ltac field_in :=
  unfold Waylines_fields, WaylinesWaypoint_fields;
  repeat first [apply list_elem_of_here | apply list_elem_of_further].

Section Validate.
Variable registry : string -> FieldValue -> bool.
Variable validate_ActionRequest : ActionRequest.t -> list FieldError.

Lemma errors_eq w :
  violations registry validate_ActionRequest w =
  validateStruct registry (root "Waylines")
    (Waylines_fields registry validate_ActionRequest w).
Proof. apply errors_of_ValidateStruct. Qed.

Lemma sliced_reports_iff {A} ns fs name cts (s : slice A) elem :
  Forall well_placed fs -> NoDup (field_name <$> fs) ->
  Sliced name cts s elem ∈ fs ->
  reports (validateStruct registry ns fs) (ns ./ name) <->
  exists t, run_tags registry cts (KSlice (IsNil s) (len s)) = Failed t.
Proof.
  intros Hwp Hnd Hf. split.
  - intros (e & He & Hns).
    apply (validateStruct_under_field registry ns fs _ e Hwp Hnd Hf) in He;
      [| exists []; exact Hns].
    apply elem_of_traverseSlice in He
      as [(t & Ht & _) | (rest & i & x & _ & _ & He)]; [eauto |].
    rewrite Forall_forall in Hwp. apply (Hwp _ Hf) in He as [r Hr].
    rewrite Hns in Hr. apply (f_equal length) in Hr.
    rewrite length_app in Hr. simpl in Hr. lia.
  - intros (t & Ht). exists (mkFieldError (ns ./ name) t).
    split; [| reflexivity].
    eapply sliced_reported; [exact Hf |].
    apply elem_of_traverseSlice. left. eauto.
Qed.

(** A slice that has an element at some index passes [required,min=1] and is
    dived into. *)
Lemma Waypoints_dive {A} (s : slice A) i x :
  elems s !! i = Some x ->
  run_tags registry [Required; Min 1; Dive] (KSlice (IsNil s) (len s))
  = Diving [].
Proof.
  destruct s as [| l]; simpl; [intros H; inversion H |].
  destruct l as [| y l]; [intros H; inversion H |]. intros _.
  unfold len. simpl.
  destruct (Z.leb_spec 1 (Z.of_nat (S (length l)))); [reflexivity | lia].
Qed.

(** The errors of waypoint [i] are part of what [Validate] returns. *)
Lemma waypoint_errors_reported w i p e :
  elems (Waylines.Waypoints w) !! i = Some p ->
  e ∈ validateStruct registry (root "Waylines" ./ "Waypoints" .# i)
        (WaylinesWaypoint_fields validate_ActionRequest p) ->
  e ∈ violations registry validate_ActionRequest w.
Proof.
  intros Hi He. rewrite errors_eq.
  eapply sliced_reported with (name := "Waypoints"); [field_in |].
  apply elem_of_traverseSlice. right. exists [], i, p.
  split; [eapply Waypoints_dive; eauto |]. split; [exact Hi | exact He].
Qed.

(** The errors at or below [Waypoints[i]] come from the walk over that
    waypoint. *)
Lemma waypoint_errors_inv w i e :
  e ∈ violations registry validate_ActionRequest w ->
  under (root "Waylines" ./ "Waypoints" .# i) e ->
  exists p, elems (Waylines.Waypoints w) !! i = Some p
    /\ e ∈ validateStruct registry (root "Waylines" ./ "Waypoints" .# i)
             (WaylinesWaypoint_fields validate_ActionRequest p).
Proof.
  rewrite errors_eq. intros He Hu.
  eapply (validateStruct_under_field registry _ _
            (Sliced "Waypoints" _ _ _)) in He;
    [| apply Waylines_fields_well_placed | apply Waylines_fields_names
     | field_in | apply (under_cons _ _ _ Hu)].
  simpl in He. destruct Hu as [r Hr].
  apply elem_of_traverseSlice in He
    as [(t & _ & ->) | (rest & j & x & _ & Hj & He)].
  - simpl in Hr. apply (f_equal length) in Hr.
    rewrite length_app in Hr. simpl in Hr. lia.
  - pose proof (dive_WaylinesWaypoint_under _ _ _ _ _ _ He) as [r' Hr'].
    rewrite Hr in Hr'. apply app_inj_2 in Hr' as [_ [= ->]]; [| reflexivity].
    eauto.
Qed.

Lemma waypoint_field_reports_iff w i p name cts v :
  elems (Waylines.Waypoints w) !! i = Some p ->
  Plain name cts v ∈ WaylinesWaypoint_fields validate_ActionRequest p ->
  reports (violations registry validate_ActionRequest w)
    (root "Waylines" ./ "Waypoints" .# i ./ name) <->
  exists t, run_tags registry cts v = Failed t.
Proof.
  intros Hi Hf. split.
  - intros (e & He & Hns).
    apply (waypoint_errors_inv w i) in He as (q & Hq & He);
      [| exists [PField name]; exact Hns].
    rewrite Hi in Hq. injection Hq as <-.
    eapply plain_reports_iff;
      [apply WaylinesWaypoint_fields_well_placed
      | apply WaylinesWaypoint_fields_names | exact Hf |].
    exists e. split; [exact He | exact Hns].
  - intros (t & Ht).
    exists (mkFieldError (root "Waylines" ./ "Waypoints" .# i ./ name) t).
    split; [| reflexivity].
    eapply waypoint_errors_reported; [exact Hi |].
    eapply plain_reported; eauto.
Qed.

Lemma top_field_reports_iff w name cts v :
  Plain name cts v ∈ Waylines_fields registry validate_ActionRequest w ->
  reports (violations registry validate_ActionRequest w)
    (root "Waylines" ./ name) <->
  exists t, run_tags registry cts v = Failed t.
Proof.
  intros Hf. rewrite errors_eq.
  apply plain_reports_iff;
    [apply Waylines_fields_well_placed | apply Waylines_fields_names
    | exact Hf].
Qed.

(** The tags [required,min=1,max=100] on a string. *)
Lemma Name_tags (s : string) :
  run_tags registry [Required; Min 1; Max 100] (KString s) =
  if String.eqb s "" then Failed Required
  else if (utf8.RuneCountInString s <? 1)%nat then Failed (Min 1)
  else if (100 <? utf8.RuneCountInString s)%nat then Failed (Max 100)
  else Passed.
Proof.
  simpl. destruct (String.eqb s ""); simpl; [reflexivity |].
  destruct (Nat.ltb_spec (utf8.RuneCountInString s) 1);
    destruct (Z.leb_spec 1 (Z.of_nat (utf8.RuneCountInString s)));
    try lia; [reflexivity |].
  destruct (Nat.ltb_spec 100 (utf8.RuneCountInString s));
    destruct (Z.leb_spec (Z.of_nat (utf8.RuneCountInString s)) 100);
    try lia; reflexivity.
Qed.

(** The tags [required,min=1,dive] on a slice. *)
Lemma Waypoints_tags {A} (s : slice A) :
  run_tags registry [Required; Min 1; Dive] (KSlice (IsNil s) (len s)) =
  if IsNil s then Failed Required
  else if (len s <? 1)%nat then Failed (Min 1)
  else Diving [].
Proof.
  simpl. destruct (IsNil s); simpl; [reflexivity |].
  destruct (Nat.ltb_spec (len s) 1); destruct (Z.leb_spec 1 (Z.of_nat (len s)));
    try lia; reflexivity.
Qed.

(** C6: an empty name, a name of more than 100 characters and an empty list
    of waypoints each make [Validate] return a non-nil error that names the
    field; a name of 1 to 100 characters and a list of at least one waypoint
    bring no violation on [Name] and [Waypoints]. *)
Theorem Validate_name_and_waypoints (w : Waylines.t) :
  let e := result (Validate registry validate_ActionRequest) w in
  let Name := root "Waylines" ./ "Name" in
  let Waypoints := root "Waylines" ./ "Waypoints" in
  (Waylines.Name w = "" -> e <> None /\ reports (errors_of e) Name)
  /\ ((100 < utf8.RuneCountInString (Waylines.Name w))%nat ->
      e <> None /\ reports (errors_of e) Name)
  /\ ((1 <= utf8.RuneCountInString (Waylines.Name w) <= 100)%nat ->
      ~ reports (errors_of e) Name)
  /\ (len (Waylines.Waypoints w) = 0%nat ->
      e <> None /\ reports (errors_of e) Waypoints)
  /\ ((1 <= len (Waylines.Waypoints w))%nat ->
      ~ reports (errors_of e) Waypoints).
Proof.
  cbv zeta. fold (violations registry validate_ActionRequest w).
  assert (HN : reports (violations registry validate_ActionRequest w)
                 (root "Waylines" ./ "Name") <->
               exists t, run_tags registry [Required; Min 1; Max 100]
                           (KString (Waylines.Name w)) = Failed t)
    by (apply top_field_reports_iff; field_in).
  assert (HW : reports (violations registry validate_ActionRequest w)
                 (root "Waylines" ./ "Waypoints") <->
               exists t, run_tags registry [Required; Min 1; Dive]
                           (KSlice (IsNil (Waylines.Waypoints w))
                                   (len (Waylines.Waypoints w))) = Failed t).
  { rewrite errors_eq.
    apply sliced_reports_iff with (elem :=
      dive_WaylinesWaypoint registry validate_ActionRequest);
      [apply Waylines_fields_well_placed | apply Waylines_fields_names
      | field_in]. }
  rewrite Name_tags in HN. rewrite Waypoints_tags in HW.
  assert (Hnil : forall ns,
            reports (violations registry validate_ActionRequest w) ns ->
            result (Validate registry validate_ActionRequest) w <> None)
    by (intros ns; apply reports_not_nil).
  split; [| split; [| split; [| split]]].
  - intros H. assert (Hr : reports
      (violations registry validate_ActionRequest w)
      (root "Waylines" ./ "Name")).
    { apply HN. rewrite H. simpl. eauto. }
    split; [eapply Hnil |]; exact Hr.
  - intros H. assert (Hr : reports
      (violations registry validate_ActionRequest w)
      (root "Waylines" ./ "Name")).
    { apply HN.
      destruct (String.eqb_spec (Waylines.Name w) "") as [He | _]; [eauto |].
      destruct (Nat.ltb_spec (utf8.RuneCountInString (Waylines.Name w)) 1);
        [lia |].
      destruct (Nat.ltb_spec 100 (utf8.RuneCountInString (Waylines.Name w)));
        [eauto | lia]. }
    split; [eapply Hnil |]; exact Hr.
  - intros [H1 H100] Hr. apply HN in Hr as [t Ht].
    destruct (String.eqb_spec (Waylines.Name w) "") as [He | _].
    { rewrite He in H1. vm_compute in H1. lia. }
    destruct (Nat.ltb_spec (utf8.RuneCountInString (Waylines.Name w)) 1);
      [lia |].
    destruct (Nat.ltb_spec 100 (utf8.RuneCountInString (Waylines.Name w)));
      [lia | discriminate].
  - intros H. assert (Hr : reports
      (violations registry validate_ActionRequest w)
      (root "Waylines" ./ "Waypoints")).
    { apply HW. destruct (IsNil (Waylines.Waypoints w)); [eauto |].
      rewrite H. simpl. eauto. }
    split; [eapply Hnil |]; exact Hr.
  - intros H Hr. apply HW in Hr as [t Ht].
    destruct (Waylines.Waypoints w) as [| l];
      [unfold len in H; simpl in H; lia |].
    simpl in Ht.
    destruct (Nat.ltb_spec (len (mk_slice l)) 1); [lia | discriminate].
Qed.

End Validate.

(** ** Ranges *)

Section Ranges.
Variable registry : string -> FieldValue -> bool.
Variable validate_ActionRequest : ActionRequest.t -> list FieldError.

(** The tags [required,min=lo,max=hi] on a [float64]. *)
Lemma coordinate_tags lo hi f :
  (exists t, run_tags registry [Required; Min lo; Max hi] (KFloat64 f)
             = Failed t)
  <-> PrimFloat.eqb f 0%float = true \/ within lo hi f = false.
Proof.
  unfold within. simpl.
  destruct (PrimFloat.eqb f 0%float); simpl; [split; eauto |].
  destruct (PrimFloat.leb (asFloat64 lo) f); simpl.
  - destruct (PrimFloat.leb f (asFloat64 hi)); simpl.
    + split; [intros [t Ht]; discriminate | intros [H | H]; discriminate].
    + split; eauto.
  - split; eauto.
Qed.

(** The tags [min=lo,max=hi] on a [float64]. *)
Lemma range_tags lo hi f :
  (exists t, run_tags registry [Min lo; Max hi] (KFloat64 f) = Failed t)
  <-> within lo hi f = false.
Proof.
  unfold within. simpl.
  destruct (PrimFloat.leb (asFloat64 lo) f); simpl.
  - destruct (PrimFloat.leb f (asFloat64 hi)); simpl.
    + split; [intros [t Ht]; discriminate | discriminate].
    + split; eauto.
  - split; eauto.
Qed.

(** A coordinate of a waypoint is reported when it is outside its range, and
    also when it is zero; otherwise it is not. *)
Lemma coordinate_violation_iff w i p :
  elems (Waylines.Waypoints w) !! i = Some p ->
  (reports (violations registry validate_ActionRequest w)
     (root "Waylines" ./ "Waypoints" .# i ./ "Latitude")
   <-> PrimFloat.eqb (WaylinesWaypoint.Latitude p) 0%float = true
       \/ within (-90) 90 (WaylinesWaypoint.Latitude p) = false)
  /\ (reports (violations registry validate_ActionRequest w)
     (root "Waylines" ./ "Waypoints" .# i ./ "Longitude")
   <-> PrimFloat.eqb (WaylinesWaypoint.Longitude p) 0%float = true
       \/ within (-180) 180 (WaylinesWaypoint.Longitude p) = false).
Proof.
  intros Hi. split.
  - rewrite <- coordinate_tags.
    apply waypoint_field_reports_iff with (p := p); [exact Hi | field_in].
  - rewrite <- coordinate_tags.
    apply waypoint_field_reports_iff with (p := p); [exact Hi | field_in].
Qed.

(** [GlobalHeight] and [GlobalSpeed] are reported exactly when they are
    outside 5..1500 and 1..15; zero is outside both. *)
Lemma global_violation_iff w :
  (reports (violations registry validate_ActionRequest w)
     (root "Waylines" ./ "GlobalHeight")
   <-> within 5 1500 (Waylines.GlobalHeight w) = false)
  /\ (reports (violations registry validate_ActionRequest w)
     (root "Waylines" ./ "GlobalSpeed")
   <-> within 1 15 (Waylines.GlobalSpeed w) = false).
Proof.
  split.
  - rewrite <- range_tags. apply top_field_reports_iff. field_in.
  - rewrite <- range_tags. apply top_field_reports_iff. field_in.
Qed.

(** The overrides of a waypoint: [Speed] is reported when outside 1..15,
    [TriggerType] when it is not one of the trigger types, [TriggerParam]
    when below 0, and [WaypointTurnMode] when it is neither empty nor a turn
    mode. *)
Lemma override_violation_iff w i p :
  elems (Waylines.Waypoints w) !! i = Some p ->
  (reports (violations registry validate_ActionRequest w)
     (root "Waylines" ./ "Waypoints" .# i ./ "Speed")
   <-> within 1 15 (WaylinesWaypoint.Speed p) = false)
  /\ (reports (violations registry validate_ActionRequest w)
     (root "Waylines" ./ "Waypoints" .# i ./ "TriggerType")
   <-> existsb (String.eqb (WaylinesWaypoint.TriggerType p)) trigger_types
       = false)
  /\ (reports (violations registry validate_ActionRequest w)
     (root "Waylines" ./ "Waypoints" .# i ./ "TriggerParam")
   <-> PrimFloat.leb 0%float (WaylinesWaypoint.TriggerParam p) = false)
  /\ (reports (violations registry validate_ActionRequest w)
     (root "Waylines" ./ "Waypoints" .# i ./ "WaypointTurnMode")
   <-> WaylinesWaypoint.WaypointTurnMode p <> ""
       /\ existsb (String.eqb (WaylinesWaypoint.WaypointTurnMode p))
            turn_modes = false).
Proof.
  intros Hi. split; [| split; [| split]].
  - rewrite <- range_tags.
    apply waypoint_field_reports_iff with (p := p); [exact Hi | field_in].
  - rewrite (waypoint_field_reports_iff registry validate_ActionRequest
               w i p "TriggerType" _ _ Hi ltac:(field_in)).
    cbn [run_tags tag_fn isOneOf].
    destruct (existsb _ trigger_types); split;
      first [intros [t Ht]; discriminate | discriminate | eauto].
  - rewrite (waypoint_field_reports_iff registry validate_ActionRequest
               w i p "TriggerParam" _ _ Hi ltac:(field_in)).
    cbn [run_tags tag_fn isGte]. change (asFloat64 0) with 0%float.
    destruct (PrimFloat.leb 0%float _); split;
      first [intros [t Ht]; discriminate | discriminate | eauto].
  - rewrite (waypoint_field_reports_iff registry validate_ActionRequest
               w i p "WaypointTurnMode" _ _ Hi ltac:(field_in)).
    cbn [run_tags tag_fn isOneOf hasValue].
    destruct (String.eqb_spec (WaylinesWaypoint.WaypointTurnMode p) "")
      as [He | Hne]; cbn [negb].
    + split; [intros [t Ht]; discriminate | intros [H _]; contradiction].
    + destruct (existsb _ turn_modes); split;
        first [intros [t Ht]; discriminate | intros [_ H]; discriminate
              | eauto].
Qed.

End Ranges.

(** ** The missions, validated *)

Section Missions.
Variable registry : string -> FieldValue -> bool.
Variable validate_ActionRequest : ActionRequest.t -> list FieldError.

Lemma first_waypoint_reported w p name cts v t :
  elems (Waylines.Waypoints w) !! 0%nat = Some p ->
  Plain name cts v ∈ WaylinesWaypoint_fields validate_ActionRequest p ->
  run_tags registry cts v = Failed t ->
  mkFieldError (root "Waylines" ./ "Waypoints" .# 0 ./ name) t
    ∈ violations registry validate_ActionRequest w.
Proof.
  intros Hp Hf Ht. eapply waypoint_errors_reported; [exact Hp |].
  eapply plain_reported; eauto.
Qed.

(** C3: a waypoint at latitude 0 and longitude 0 lies within -90..90 and
    -180..180, and [Validate] reports both coordinates: [required] fails on
    the zero value. *)
Theorem Validate_rejects_zero_coordinates :
  within (-90) 90 0%float = true
  /\ within (-180) 180 0%float = true
  /\ mkFieldError (root "Waylines" ./ "Waypoints" .# 0 ./ "Latitude") Required
       ∈ violations registry validate_ActionRequest equator_mission
  /\ mkFieldError (root "Waylines" ./ "Waypoints" .# 0 ./ "Longitude") Required
       ∈ violations registry validate_ActionRequest equator_mission.
Proof.
  split; [reflexivity |]. split; [reflexivity |]. split.
  - eapply first_waypoint_reported; [reflexivity | field_in | reflexivity].
  - eapply first_waypoint_reported; [reflexivity | field_in | reflexivity].
Qed.

(** C4: with [GlobalHeight] and [GlobalSpeed] left at zero, [Validate]
    reports both: [min=5] and [min=1] fail on the zero value. *)
Theorem Validate_rejects_unset_globals :
  Waylines.GlobalHeight no_globals_mission = 0%float
  /\ Waylines.GlobalSpeed no_globals_mission = 0%float
  /\ mkFieldError (root "Waylines" ./ "GlobalHeight") (Min 5)
       ∈ violations registry validate_ActionRequest no_globals_mission
  /\ mkFieldError (root "Waylines" ./ "GlobalSpeed") (Min 1)
       ∈ violations registry validate_ActionRequest no_globals_mission.
Proof.
  split; [reflexivity |]. split; [reflexivity |].
  unfold violations. rewrite Validate_result, errors_of_ValidateStruct. split.
  - eapply plain_reported; [field_in | reflexivity].
  - eapply plain_reported; [field_in | reflexivity].
Qed.

(** C5: on a waypoint that leaves its overrides unset, [Validate] reports
    [Speed] and [TriggerType] ([min=1] and [oneof] fail on the zero value),
    and reports neither [TriggerParam] nor [WaypointTurnMode]. *)
Theorem Validate_rejects_unset_overrides :
  let errs := violations registry validate_ActionRequest no_overrides_mission in
  mkFieldError (root "Waylines" ./ "Waypoints" .# 0 ./ "Speed") (Min 1) ∈ errs
  /\ mkFieldError (root "Waylines" ./ "Waypoints" .# 0 ./ "TriggerType")
       (Oneof trigger_types) ∈ errs
  /\ ~ reports errs (root "Waylines" ./ "Waypoints" .# 0 ./ "TriggerParam")
  /\ ~ reports errs (root "Waylines" ./ "Waypoints" .# 0 ./ "WaypointTurnMode").
Proof.
  cbv zeta.
  destruct (override_violation_iff registry validate_ActionRequest
              no_overrides_mission 0%nat _ eq_refl) as (_ & _ & HP & HM).
  split; [| split; [| split]].
  - eapply first_waypoint_reported; [reflexivity | field_in | reflexivity].
  - eapply first_waypoint_reported; [reflexivity | field_in | reflexivity].
  - rewrite HP. discriminate.
  - rewrite HM. intros [H _]. apply H. reflexivity.
Qed.

End Missions.

(** With the models of the README registered, the mission within every range
    validates. *)
Example Validate_beijing_mission :
  result (Validate readme_registry no_action_errors) beijing_mission = None.
Proof. vm_compute. reflexivity. Qed.

Example Validate_equator_mission :
  result (Validate readme_registry no_action_errors) equator_mission =
  Some [mkFieldError (root "Waylines" ./ "Waypoints" .# 0 ./ "Latitude")
          Required;
        mkFieldError (root "Waylines" ./ "Waypoints" .# 0 ./ "Longitude")
          Required].
Proof. vm_compute. reflexivity. Qed.

Example Validate_no_globals_mission :
  result (Validate readme_registry no_action_errors) no_globals_mission =
  Some [mkFieldError (root "Waylines" ./ "GlobalHeight") (Min 5);
        mkFieldError (root "Waylines" ./ "GlobalSpeed") (Min 1)].
Proof. vm_compute. reflexivity. Qed.

Example Validate_no_overrides_mission :
  result (Validate readme_registry no_action_errors) no_overrides_mission =
  Some [mkFieldError (root "Waylines" ./ "Waypoints" .# 0 ./ "Speed") (Min 1);
        mkFieldError (root "Waylines" ./ "Waypoints" .# 0 ./ "TriggerType")
          (Oneof trigger_types)].
Proof. vm_compute. reflexivity. Qed.

(** Latitude 200 and height 3000: both are in the list. *)
Example Validate_two_violations_mission :
  result (Validate readme_registry no_action_errors) two_violations_mission =
  Some [mkFieldError (root "Waylines" ./ "Waypoints" .# 0 ./ "Latitude")
          (Max 90);
        mkFieldError (root "Waylines" ./ "Waypoints" .# 0 ./ "Height")
          (Max 500)].
Proof. vm_compute. reflexivity. Qed.

(** The Quick Start mission of the README leaves its optional fields unset,
    and is reported on eight of them. *)
Example Validate_quick_start :
  Namespace_string ∘ Namespace
    <$> violations readme_registry no_action_errors quick_start =
  ["Waylines.ClimbMode"; "Waylines.SafeHeight"; "Waylines.GlobalRTHHeight";
   "Waylines.AircraftYawMode"; "Waylines.GimbalPitchMode";
   "Waylines.GlobalTransitionalSpeed"; "Waylines.Waypoints[0].TriggerType";
   "Waylines.Waypoints[1].TriggerType"].
Proof. vm_compute. reflexivity. Qed.

Example Namespace_string_waypoint :
  Namespace_string (root "Waylines" ./ "Waypoints" .# 12 ./ "Height")
  = "Waylines.Waypoints[12].Height".
Proof. vm_compute. reflexivity. Qed.

Example RuneCountInString_ascii :
  utf8.RuneCountInString "Sample Mission" = 14%nat.
Proof. reflexivity. Qed.

(** ** Encoding takePhoto *)





(** The other failures of the encoder. *)
Example encode_unsupported_type :
  encode_action 0 (ActionRequest.mk "selfDestruct" ∅)
  = inl (UnsupportedActionType "selfDestruct").
Proof. vm_compute. reflexivity. Qed.

Example encode_gimbalRotate_missing_mode :
  encode_action 0
    (ActionRequest.mk "gimbalRotate" {[ "payloadPositionIndex" := AInt 0 ]})
  = inl (MissingParameter "gimbalRotate" "gimbalRotateMode").
Proof. vm_compute. reflexivity. Qed.

Example encode_gimbalRotate_missing_angles :
  encode_action 0
    (ActionRequest.mk "gimbalRotate"
       {[ "payloadPositionIndex" := AInt 0;
          "gimbalRotateMode" := AString "absoluteAngle" ]})
  = inl (MissingParameter "gimbalRotate" "gimbalPitchRotateAngle").
Proof. vm_compute. reflexivity. Qed.

Example encode_hover_invalid_time :
  encode_action 0 (ActionRequest.mk "hover" {[ "hoverTime" := AInt 0 ]})
  = inl (InvalidParameter "hover" "hoverTime" (AInt 0)).
Proof. vm_compute. reflexivity. Qed.

(** ** ApplyDefaults and Validate together *)

(** X1: after [ApplyDefaults] the height mode of the receiver is set: it is
    never the empty string. *)
Theorem ApplyDefaults_HeightType_set (w : Waylines.t) :
  Waylines.HeightType (after ApplyDefaults w) <> "".
Proof.
  rewrite ApplyDefaults_after.
  destruct (String.eqb_spec (Waylines.HeightType w) "");
    [discriminate | assumption].
Qed.

(** X2: [ApplyDefaults] leaves the receiver as it is exactly when its
    [HeightType] is already set. *)
Theorem ApplyDefaults_noop_iff (w : Waylines.t) :
  after ApplyDefaults w = w <-> Waylines.HeightType w <> "".
Proof.
  rewrite ApplyDefaults_after.
  destruct (String.eqb_spec (Waylines.HeightType w) "") as [He | Hne].
  - split; [| contradiction]. intros H Hn.
    apply (f_equal Waylines.HeightType) in H. simpl in H.
    rewrite He in H. discriminate.
  - split; auto.
Qed.

(** X3: [HeightType] carries no [validate] tag, so [ApplyDefaults] does not
    change what [Validate] returns, and the two calls give the same error and
    the same receiver in either order. *)
Theorem ApplyDefaults_Validate_commute
    (registry : string -> FieldValue -> bool)
    (vAR : ActionRequest.t -> list FieldError) (w : Waylines.t) :
  result (Validate registry vAR) (after ApplyDefaults w)
  = result (Validate registry vAR) w
  /\ (let* _ := ApplyDefaults in Validate registry vAR) w
     = (let* e := Validate registry vAR in
        let* _ := ApplyDefaults in ret e) w.
Proof.
  assert (H : forall w', result (Validate registry vAR) w'
                         = ValidateStruct registry vAR w') by reflexivity.
  rewrite !H, ApplyDefaults_after.
  cbv [bind Validate ApplyDefaults load ret store].
  destruct (String.eqb (Waylines.HeightType w) ""); split; reflexivity.
Qed.

(** ** What Validate does not report *)

Section Walk_more.
Variable registry : string -> FieldValue -> bool.
Variable validate_ActionRequest : ActionRequest.t -> list FieldError.

Ltac in_cases H :=
  repeat (apply elem_of_cons in H as [-> | H]); [.. | inversion H].

Lemma waypoint_walk_inv ns p e :
  e ∈ validateStruct registry ns
        (WaylinesWaypoint_fields validate_ActionRequest p) ->
  (exists name cts v t,
      Plain name cts v ∈ WaylinesWaypoint_fields validate_ActionRequest p
      /\ run_tags registry cts v = Failed t
      /\ e = mkFieldError (ns ./ name) t)
  \/ (exists j a e0,
      elems (WaylinesWaypoint.Actions p) !! j = Some a
      /\ e0 ∈ validate_ActionRequest a
      /\ e = relocate (ns ./ "Actions" .# j) e0).
Proof.
  intros He. apply elem_of_validateStruct in He as (f & Hf & He).
  unfold WaylinesWaypoint_fields in Hf. in_cases Hf;
    try (match type of He with
         | _ ∈ traverse _ _ (Plain ?n ?c ?v) =>
             apply elem_of_traverseField in He as (t & Ht & ->);
             left; exists n, c, v, t;
             split; [field_in | split; [exact Ht | reflexivity]]
         end).
  apply elem_of_traverseSlice in He
    as [(t & Ht & _) | (rest & j & a & _ & Hj & He)]; [discriminate |].
  unfold dive_ActionRequest in He.
  apply list_elem_of_fmap in He as (e0 & -> & He0). right. eauto 6.
Qed.

(** X4: [Validate] reports nothing but violations: every error it returns is
    a failing tag of a field of the [Waylines], of its [Waypoints] slice, of
    a field of the waypoint at an existing index, an error of an action
    request at an existing index, or a failing photo setting. *)
Theorem Validate_reports_only_violations w e :
  e ∈ violations registry validate_ActionRequest w ->
  is_violation registry validate_ActionRequest w e.
Proof.
  unfold is_violation. rewrite errors_eq. intros He.
  apply elem_of_validateStruct in He as (f & Hf & He).
  unfold Waylines_fields in Hf. in_cases Hf;
    try (match type of He with
         | _ ∈ traverse _ _ (Plain ?n ?c ?v) =>
             apply elem_of_traverseField in He as (t & Ht & ->);
             left; exists n, c, v, t;
             split; [field_in | split; [exact Ht | reflexivity]]
         end).
  - apply elem_of_traverseSlice in He
      as [(t & Ht & _) | (rest & k & x & [= <-] & Hk & He)]; [discriminate |].
    unfold dive_string in He.
    destruct (run_tags registry _ (KString x)) as [| t |] eqn:Ht;
      try (inversion He; fail).
    apply list_elem_of_singleton in He as ->. do 4 right. eauto 6.
  - apply elem_of_traverseSlice in He
      as [(t & Ht & ->) | (rest & i & p & _ & Hi & He)];
      [right; left; eauto |].
    apply waypoint_walk_inv in He
      as [(n & c & v & t & Hf & Ht & ->) | (j & a & e0 & Hj & He0 & ->)].
    + do 2 right. left. eauto 10.
    + do 3 right. left. eauto 10.
Qed.

Lemma traverseField_NoDup ns name cts v :
  NoDup (Namespace <$> traverseField registry ns name cts v).
Proof.
  unfold traverseField. destruct (run_tags registry cts v);
    simpl; repeat constructor; apply not_elem_of_nil.
Qed.

Lemma dive_NoDup {A} (elem : path -> list Tag -> A -> list FieldError)
    base rest (l : list A) k :
  (forall ns cts x e, e ∈ elem ns cts x -> under ns e) ->
  (forall i x, l !! i = Some x ->
     NoDup (Namespace <$> elem (base .# (k + i)) rest x)) ->
  NoDup (Namespace
           <$> mjoin (imap (fun i x => elem (base .# (k + i)) rest x) l)).
Proof.
  intros Hu. revert k. induction l as [| x l IH]; intros k Hnd.
  - constructor.
  - rewrite imap_cons. simpl. rewrite fmap_app. apply NoDup_app.
    split; [apply (Hnd 0%nat x eq_refl) |]. split.
    + intros ns H1 H2.
      apply list_elem_of_fmap in H1 as (e1 & -> & H1).
      apply list_elem_of_fmap in H2 as (e2 & Heq & H2).
      apply list_elem_of_join in H2 as (l2 & H2 & Hl2).
      apply elem_of_lookup_imap in Hl2 as (i & y & -> & Hy).
      apply Hu in H1 as [r1 H1]. apply Hu in H2 as [r2 H2].
      rewrite Heq, H2 in H1.
      apply app_inj_2 in H1 as [_ [= H1]]; [lia | reflexivity].
    + rewrite (imap_ext _ (fun i y => elem (base .# (S k + i)) rest y)).
      * apply IH. intros i y Hy.
        replace (S k + i)%nat with (k + S i)%nat by lia.
        apply (Hnd (S i) y Hy).
      * intros i y _. simpl. f_equal. f_equal. f_equal. lia.
Qed.

Lemma traverseSlice_NoDup {A} ns name cts (s : slice A) elem :
  (forall ns cts x e, e ∈ elem ns cts x -> under ns e) ->
  (forall ns cts x, NoDup (Namespace <$> elem ns cts x)) ->
  NoDup (Namespace <$> traverseSlice registry ns name cts s elem).
Proof.
  intros Hu Hnd. unfold traverseSlice.
  destruct (run_tags registry cts _) as [| t | rest].
  - constructor.
  - simpl. repeat constructor. apply not_elem_of_nil.
  - apply (dive_NoDup elem (ns ./ name) rest (elems s) 0 Hu).
    intros i x _. apply Hnd.
Qed.

Lemma validateStruct_NoDup ns fs :
  Forall well_placed fs -> NoDup (field_name <$> fs) ->
  (forall f, f ∈ fs -> NoDup (Namespace <$> traverse registry ns f)) ->
  NoDup (Namespace <$> validateStruct registry ns fs).
Proof.
  induction fs as [| f fs IH]; intros Hwp Hnames Hnd.
  - constructor.
  - apply Forall_cons in Hwp as [Hf Hwp]. rewrite fmap_cons in Hnames.
    apply NoDup_cons in Hnames as [Hname Hnames].
    change (validateStruct registry ns (f :: fs))
      with (traverse registry ns f ++ validateStruct registry ns fs).
    rewrite fmap_app. apply NoDup_app.
    split; [apply Hnd, list_elem_of_here |]. split.
    + intros x H1 H2.
      apply list_elem_of_fmap in H1 as (e1 & -> & H1).
      apply list_elem_of_fmap in H2 as (e2 & Heq & H2).
      apply elem_of_validateStruct in H2 as (g & Hg & H2).
      rewrite Forall_forall in Hwp.
      apply (traverse_under registry ns f e1 Hf) in H1 as [r1 H1].
      apply (traverse_under registry ns g e2 (Hwp g Hg)) in H2 as [r2 H2].
      rewrite Heq, H2 in H1.
      apply app_inj_2 in H1 as [_ [= H1]]; [| reflexivity].
      apply Hname. rewrite <- H1. apply list_elem_of_fmap. eauto.
    + apply IH; [exact Hwp | exact Hnames |].
      intros g Hg. apply Hnd, list_elem_of_further, Hg.
Qed.

Lemma relocate_NoDup ns (l : list FieldError) :
  NoDup (Namespace <$> l) -> NoDup (Namespace <$> (relocate ns <$> l)).
Proof.
  intros H.
  replace (Namespace <$> (relocate ns <$> l))
    with ((fun p => p ++ ns) <$> (Namespace <$> l))
    by (rewrite <- !list_fmap_compose; reflexivity).
  apply NoDup_fmap_2; [| exact H].
  intros p q Hpq. apply app_inv_tail in Hpq. exact Hpq.
Qed.

Lemma waypoint_walk_NoDup ns p :
  (forall a, NoDup (Namespace <$> validate_ActionRequest a)) ->
  NoDup (Namespace <$> validateStruct registry ns
                       (WaylinesWaypoint_fields validate_ActionRequest p)).
Proof.
  intros Ha. apply validateStruct_NoDup;
    [apply WaylinesWaypoint_fields_well_placed
    | apply WaylinesWaypoint_fields_names |].
  intros f Hf. unfold WaylinesWaypoint_fields in Hf. in_cases Hf;
    try apply traverseField_NoDup.
  apply traverseSlice_NoDup.
  - intros ? ? ? ?. apply dive_ActionRequest_under.
  - intros ? ? a. apply relocate_NoDup, Ha.
Qed.

(** X5: [Validate] names no namespace twice, provided the walk over an
    action request names none twice. *)
Theorem Validate_names_each_field_once w :
  (forall a, NoDup (Namespace <$> validate_ActionRequest a)) ->
  NoDup (Namespace <$> violations registry validate_ActionRequest w).
Proof.
  intros Ha. rewrite errors_eq. apply validateStruct_NoDup;
    [apply Waylines_fields_well_placed | apply Waylines_fields_names |].
  intros f Hf. unfold Waylines_fields in Hf. in_cases Hf;
    try apply traverseField_NoDup.
  - apply traverseSlice_NoDup.
    + intros ? ? ? ?. apply dive_string_under.
    + intros ns cts x. unfold dive_string.
      destruct (run_tags registry cts (KString x));
        simpl; repeat constructor; apply not_elem_of_nil.
  - apply traverseSlice_NoDup.
    + intros ? ? ? ?. apply dive_WaylinesWaypoint_under.
    + intros ns cts p. apply waypoint_walk_NoDup, Ha.
Qed.

End Walk_more.

(** X4 at the unset [GlobalHeight] of [no_globals_mission]. *)
Lemma Validate_reports_only_violations_witness :
  is_violation readme_registry no_action_errors no_globals_mission
    (mkFieldError (root "Waylines" ./ "GlobalHeight") (Min 5)).
Proof.
  apply (Validate_reports_only_violations readme_registry no_action_errors).
  vm_compute. apply list_elem_of_here.
Defined.

(** X5 at the Quick Start mission of the README. *)
Lemma Validate_names_each_field_once_witness :
  NoDup (Namespace <$> violations readme_registry no_action_errors quick_start).
Proof.
  apply (Validate_names_each_field_once readme_registry no_action_errors).
  intros a. vm_compute. apply NoDup_nil_2.
Defined.

(** ** Field by field *)

Lemma existsb_eqb_elem_of (s : string) (vals : list string) :
  existsb (String.eqb s) vals = true <-> s ∈ vals.
Proof.
  rewrite existsb_exists. split.
  - intros (x & Hx & He). apply String.eqb_eq in He as ->.
    apply list_elem_of_In, Hx.
  - intros H. exists s. split; [apply list_elem_of_In, H |].
    apply String.eqb_refl.
Qed.

Lemma existsb_eqb_not_elem_of (s : string) (vals : list string) :
  existsb (String.eqb s) vals = false <-> s ∉ vals.
Proof.
  rewrite <- existsb_eqb_elem_of.
  destruct (existsb (String.eqb s) vals); split; congruence.
Qed.

Section Fields.
Variable registry : string -> FieldValue -> bool.
Variable validate_ActionRequest : ActionRequest.t -> list FieldError.

(** The tag [oneof=...] on a string. *)
Lemma oneof_tags vals s :
  (exists t, run_tags registry [Oneof vals] (KString s) = Failed t)
  <-> s ∉ vals.
Proof.
  rewrite <- existsb_eqb_not_elem_of. cbn [run_tags tag_fn isOneOf].
  destruct (existsb (String.eqb s) vals); split;
    first [intros [t Ht]; discriminate | discriminate | eauto].
Qed.

(** The tags [omitempty,oneof=...] on a string. *)
Lemma omitempty_oneof_tags vals s :
  (exists t, run_tags registry [Omitempty; Oneof vals] (KString s) = Failed t)
  <-> s <> "" /\ s ∉ vals.
Proof.
  rewrite <- existsb_eqb_not_elem_of. cbn [run_tags tag_fn isOneOf hasValue].
  destruct (String.eqb_spec s "") as [He | Hne]; cbn [negb].
  - split; [intros [t Ht]; discriminate | intros [H _]; contradiction].
  - destruct (existsb (String.eqb s) vals); split;
      first [intros [t Ht]; discriminate | intros [_ H]; discriminate | eauto].
Qed.

(** The tag [min=0] on a [float64]. *)
Lemma min0_tags f :
  (exists t, run_tags registry [Min 0] (KFloat64 f) = Failed t)
  <-> PrimFloat.leb 0%float f = false.
Proof.
  cbn [run_tags tag_fn isGte]. change (asFloat64 0) with 0%float.
  destruct (PrimFloat.leb 0%float f); split;
    first [intros [t Ht]; discriminate | discriminate | eauto].
Qed.

(** The tags [required,name] on a string, for a registered tag [name]. *)
Lemma required_custom_tags name s :
  (exists t, run_tags registry [Required; Custom name] (KString s) = Failed t)
  <-> s = "" \/ registry name (KString s) = false.
Proof.
  cbn [run_tags tag_fn hasValue].
  destruct (String.eqb_spec s "") as [He | Hne]; cbn [negb].
  - split; eauto.
  - destruct (registry name (KString s)); split;
      first [intros [t Ht]; discriminate | intros [H | H]; congruence | eauto].
Qed.

(** A registered tag alone. *)
Lemma custom_tags name v :
  (exists t, run_tags registry [Custom name] v = Failed t)
  <-> registry name v = false.
Proof.
  cbn [run_tags tag_fn]. destruct (registry name v); split;
    first [intros [t Ht]; discriminate | discriminate | eauto].
Qed.

(** The tag [required] on a string. *)
Lemma required_tags s :
  (exists t, run_tags registry [Required] (KString s) = Failed t) <-> s = "".
Proof.
  cbn [run_tags tag_fn hasValue].
  destruct (String.eqb_spec s "") as [He | Hne]; cbn [negb]; split;
    first [intros [t Ht]; discriminate | contradiction | eauto].
Qed.

(** The tag [max=hi] on a string. *)
Lemma max_string_tags hi s :
  (exists t, run_tags registry [Max (Z.of_nat hi)] (KString s) = Failed t)
  <-> (hi < utf8.RuneCountInString s)%nat.
Proof.
  cbn [run_tags tag_fn isLte].
  destruct (Z.leb_spec (Z.of_nat (utf8.RuneCountInString s)) (Z.of_nat hi));
    split; first [intros [t Ht]; discriminate | lia | eauto].
Qed.

(** A field without tags. *)
Lemma no_tags v : ~ exists t, run_tags registry [] v = Failed t.
Proof. intros [t Ht]. discriminate. Qed.

End Fields.

Section Reports.
Variable registry : string -> FieldValue -> bool.
Variable validate_ActionRequest : ActionRequest.t -> list FieldError.

(** The errors at or below [Waypoints] are those of the walk over that
    slice. *)
Lemma Waypoints_errors_iff w e :
  e ∈ violations registry validate_ActionRequest w
  /\ under (root "Waylines" ./ "Waypoints") e
  <-> e ∈ traverseSlice registry (root "Waylines") "Waypoints"
            [Required; Min 1; Dive] (Waylines.Waypoints w)
            (dive_WaylinesWaypoint registry validate_ActionRequest).
Proof.
  rewrite errors_eq. split.
  - intros [He Hu].
    apply (validateStruct_under_field registry _ _
             (Sliced "Waypoints" _ _ _) e
             (Waylines_fields_well_placed _ _ w)
             (Waylines_fields_names _ _ w) ltac:(field_in) He Hu).
  - intros He. split.
    + eapply sliced_reported; [| exact He]. field_in.
    + apply (traverse_under registry _
               (Sliced "Waypoints" [Required; Min 1; Dive]
                  (Waylines.Waypoints w)
                  (dive_WaylinesWaypoint registry validate_ActionRequest)) e);
        [| exact He].
      intros ns cts x e'. apply dive_WaylinesWaypoint_under.
Qed.

(** X6: a nil [Waypoints] is reported with the tag [required] and an empty
    one with the tag [min]; in both cases that is the only error at or below
    [Waypoints]. *)
Theorem Waypoints_nil_and_empty (w : Waylines.t) (e : FieldError) :
  (Waylines.Waypoints w = nil_slice ->
     (e ∈ violations registry validate_ActionRequest w
      /\ under (root "Waylines" ./ "Waypoints") e
      <-> e = mkFieldError (root "Waylines" ./ "Waypoints") Required))
  /\ (Waylines.Waypoints w = mk_slice [] ->
     (e ∈ violations registry validate_ActionRequest w
      /\ under (root "Waylines" ./ "Waypoints") e
      <-> e = mkFieldError (root "Waylines" ./ "Waypoints") (Min 1))).
Proof.
  split; intros Hw; rewrite Waypoints_errors_iff, Hw;
    unfold traverseSlice; simpl; apply list_elem_of_singleton.
Qed.

(** X7: the [Height] of a waypoint is reported exactly when it is zero or
    outside 5..500, and its [TurnDampingDist] exactly when it is not at
    least 0. *)
Theorem waypoint_Height_violation_iff (w : Waylines.t) (i : nat)
    (p : WaylinesWaypoint.t) :
  elems (Waylines.Waypoints w) !! i = Some p ->
  (reports (violations registry validate_ActionRequest w)
     (root "Waylines" ./ "Waypoints" .# i ./ "Height")
   <-> PrimFloat.eqb (WaylinesWaypoint.Height p) 0%float = true
       \/ within 5 500 (WaylinesWaypoint.Height p) = false)
  /\ (reports (violations registry validate_ActionRequest w)
     (root "Waylines" ./ "Waypoints" .# i ./ "TurnDampingDist")
   <-> PrimFloat.leb 0%float (WaylinesWaypoint.TurnDampingDist p) = false).
Proof.
  intros Hi. split.
  - rewrite <- (coordinate_tags registry).
    apply waypoint_field_reports_iff with (p := p); [exact Hi | field_in].
  - rewrite <- (min0_tags registry).
    apply waypoint_field_reports_iff with (p := p); [exact Hi | field_in].
Qed.

(** X8: [SafeHeight], [GlobalRTHHeight] and [GlobalTransitionalSpeed] are
    reported exactly when outside 20..200, 20..1500 and 1..15; an unset
    (zero) value is outside. *)
Theorem flight_envelope_violation_iff (w : Waylines.t) :
  (reports (violations registry validate_ActionRequest w)
     (root "Waylines" ./ "SafeHeight")
   <-> within 20 200 (Waylines.SafeHeight w) = false)
  /\ (reports (violations registry validate_ActionRequest w)
     (root "Waylines" ./ "GlobalRTHHeight")
   <-> within 20 1500 (Waylines.GlobalRTHHeight w) = false)
  /\ (reports (violations registry validate_ActionRequest w)
     (root "Waylines" ./ "GlobalTransitionalSpeed")
   <-> within 1 15 (Waylines.GlobalTransitionalSpeed w) = false)
  /\ within 20 200 0%float = false
  /\ within 20 1500 0%float = false
  /\ within 1 15 0%float = false.
Proof.
  repeat split; try reflexivity;
    try (rewrite <- (range_tags registry);
         apply top_field_reports_iff; field_in);
    try (rewrite <- (range_tags registry);
         apply top_field_reports_iff; field_in).
Qed.

(** X9: the take-off reference point is reported exactly when its latitude
    is outside -90..90 or its longitude outside -180..180, so that zero is
    accepted there; [GlobalTurnDampingDist] is reported exactly when it is
    not at least 0. *)
Theorem TakeOffRefPoint_violation_iff (w : Waylines.t) :
  (reports (violations registry validate_ActionRequest w)
     (root "Waylines" ./ "TakeOffRefPointLatitude")
   <-> within (-90) 90 (Waylines.TakeOffRefPointLatitude w) = false)
  /\ (reports (violations registry validate_ActionRequest w)
     (root "Waylines" ./ "TakeOffRefPointLongitude")
   <-> within (-180) 180 (Waylines.TakeOffRefPointLongitude w) = false)
  /\ (reports (violations registry validate_ActionRequest w)
     (root "Waylines" ./ "GlobalTurnDampingDist")
   <-> PrimFloat.leb 0%float (Waylines.GlobalTurnDampingDist w) = false)
  /\ within (-90) 90 0%float = true
  /\ within (-180) 180 0%float = true.
Proof.
  split; [| split; [| split; [| split; reflexivity]]].
  - rewrite <- (range_tags registry). apply top_field_reports_iff. field_in.
  - rewrite <- (range_tags registry). apply top_field_reports_iff. field_in.
  - rewrite <- (min0_tags registry). apply top_field_reports_iff. field_in.
Qed.

(** X10: [ClimbMode], [AircraftYawMode] and [GimbalPitchMode] are reported
    exactly when they are not one of their listed values, the empty string
    included; [GlobalWaypointTurnMode] is reported exactly when it is neither
    empty nor a turn mode. *)
Theorem mode_violation_iff (w : Waylines.t) :
  (reports (violations registry validate_ActionRequest w)
     (root "Waylines" ./ "ClimbMode")
   <-> Waylines.ClimbMode w ∉ ["vertical"; "inclined"])
  /\ (reports (violations registry validate_ActionRequest w)
     (root "Waylines" ./ "AircraftYawMode")
   <-> Waylines.AircraftYawMode w
       ∉ ["followWayline"; "followRoute"; "manual"; "free"])
  /\ (reports (violations registry validate_ActionRequest w)
     (root "Waylines" ./ "GimbalPitchMode")
   <-> Waylines.GimbalPitchMode w ∉ ["usePointSetting"; "manual"; "free"])
  /\ (reports (violations registry validate_ActionRequest w)
     (root "Waylines" ./ "GlobalWaypointTurnMode")
   <-> Waylines.GlobalWaypointTurnMode w <> ""
       /\ Waylines.GlobalWaypointTurnMode w ∉ turn_modes).
Proof.
  split; [| split; [| split]].
  - rewrite <- (oneof_tags registry). apply top_field_reports_iff. field_in.
  - rewrite <- (oneof_tags registry). apply top_field_reports_iff. field_in.
  - rewrite <- (oneof_tags registry). apply top_field_reports_iff. field_in.
  - rewrite <- (omitempty_oneof_tags registry).
    apply top_field_reports_iff. field_in.
Qed.

(** X11: [DroneModel] and [PayloadModel] are reported exactly when they are
    empty or the function registered for their tag rejects them,
    [PayloadPositionIndex] exactly when its registered function rejects it,
    and [TemplateType] exactly when it is empty. *)
Theorem model_violation_iff (w : Waylines.t) :
  (reports (violations registry validate_ActionRequest w)
     (root "Waylines" ./ "DroneModel")
   <-> Waylines.DroneModel w = ""
       \/ registry "drone_model" (KString (Waylines.DroneModel w)) = false)
  /\ (reports (violations registry validate_ActionRequest w)
     (root "Waylines" ./ "PayloadModel")
   <-> Waylines.PayloadModel w = ""
       \/ registry "payload_model" (KString (Waylines.PayloadModel w)) = false)
  /\ (reports (violations registry validate_ActionRequest w)
     (root "Waylines" ./ "PayloadPositionIndex")
   <-> registry "payload_position"
         (KInt (Waylines.PayloadPositionIndex w)) = false)
  /\ (reports (violations registry validate_ActionRequest w)
     (root "Waylines" ./ "TemplateType")
   <-> Waylines.TemplateType w = "").
Proof.
  split; [| split; [| split]].
  - rewrite <- (required_custom_tags registry).
    apply top_field_reports_iff. field_in.
  - rewrite <- (required_custom_tags registry).
    apply top_field_reports_iff. field_in.
  - rewrite <- (custom_tags registry). apply top_field_reports_iff. field_in.
  - rewrite <- (required_tags registry). apply top_field_reports_iff. field_in.
Qed.

(** X12: [Description] is reported exactly when it is longer than 500
    characters; an empty description is accepted. *)
Theorem Description_violation_iff (w : Waylines.t) :
  reports (violations registry validate_ActionRequest w)
    (root "Waylines" ./ "Description")
  <-> (500 < utf8.RuneCountInString (Waylines.Description w))%nat.
Proof.
  rewrite <- (max_string_tags registry).
  apply top_field_reports_iff. field_in.
Qed.

(** The errors at or below [Waypoints[i].name], for a waypoint [p] there. *)
Lemma waypoint_sliced_reports_iff {A} w i p name cts (s : slice A) elem :
  elems (Waylines.Waypoints w) !! i = Some p ->
  Sliced name cts s elem ∈ WaylinesWaypoint_fields validate_ActionRequest p ->
  reports (violations registry validate_ActionRequest w)
    (root "Waylines" ./ "Waypoints" .# i ./ name)
  <-> exists t, run_tags registry cts (KSlice (IsNil s) (len s)) = Failed t.
Proof.
  intros Hi Hf. split.
  - intros (e & He & Hns).
    apply (waypoint_errors_inv _ _ w i) in He as (q & Hq & He);
      [| exists [PField name]; exact Hns].
    rewrite Hi in Hq. injection Hq as <-.
    eapply sliced_reports_iff;
      [apply WaylinesWaypoint_fields_well_placed
      | apply WaylinesWaypoint_fields_names | exact Hf |].
    exists e. split; [exact He | exact Hns].
  - intros (t & Ht).
    exists (mkFieldError (root "Waylines" ./ "Waypoints" .# i ./ name) t).
    split; [| reflexivity].
    eapply waypoint_errors_reported; [exact Hi |].
    eapply sliced_reported; [exact Hf |].
    apply elem_of_traverseSlice. left. eauto.
Qed.

(** X13: the fields without a [validate] tag are never reported, and neither
    are the slices [PhotoSettings] and [Actions] themselves, nil or not. *)
Theorem untagged_never_reported (w : Waylines.t) (i : nat) :
  let errs := violations registry validate_ActionRequest w in
  ~ reports errs (root "Waylines" ./ "UseLowLightSmart")
  /\ ~ reports errs (root "Waylines" ./ "FinishAction")
  /\ ~ reports errs (root "Waylines" ./ "HeightType")
  /\ ~ reports errs (root "Waylines" ./ "TakeOffRefPointHeight")
  /\ ~ reports errs (root "Waylines" ./ "TakeOffRefPointAGLHeight")
  /\ ~ reports errs (root "Waylines" ./ "GlobalUseStraightLine")
  /\ ~ reports errs (root "Waylines" ./ "PhotoSettings")
  /\ ~ reports errs (root "Waylines" ./ "Waypoints" .# i ./ "UseStraightLine")
  /\ ~ reports errs (root "Waylines" ./ "Waypoints" .# i ./ "Actions").
Proof.
  cbv zeta.
  assert (Hp : forall name v,
            Plain name [] v
              ∈ Waylines_fields registry validate_ActionRequest w ->
            ~ reports (violations registry validate_ActionRequest w)
                (root "Waylines" ./ name)).
  { intros name v Hf Hr.
    apply (top_field_reports_iff _ _ w name [] v Hf) in Hr.
    exact (no_tags registry v Hr). }
  repeat split; try (eapply Hp; solve [field_in]).
  - rewrite errors_eq. intros Hr.
    apply (sliced_reports_iff registry _ _ "PhotoSettings" _
             (Waylines.PhotoSettings w) (dive_string registry)
             (Waylines_fields_well_placed _ _ w)
             (Waylines_fields_names _ _ w) ltac:(field_in)) in Hr
      as [t Ht].
    discriminate.
  - intros (e & He & Hns).
    destruct (waypoint_errors_inv _ _ w i e He) as (p & Hi & _);
      [exists [PField "UseStraightLine"]; exact Hns |].
    assert (Hr : reports (violations registry validate_ActionRequest w)
              (root "Waylines" ./ "Waypoints" .# i ./ "UseStraightLine"))
      by (exists e; auto).
    apply (waypoint_field_reports_iff _ _ w i p "UseStraightLine" [] _ Hi
             ltac:(field_in)) in Hr.
    exact (no_tags registry _ Hr).
  - intros (e & He & Hns).
    destruct (waypoint_errors_inv _ _ w i e He) as (p & Hi & _);
      [exists [PField "Actions"]; exact Hns |].
    assert (Hr : reports (violations registry validate_ActionRequest w)
              (root "Waylines" ./ "Waypoints" .# i ./ "Actions"))
      by (exists e; auto).
    apply (waypoint_sliced_reports_iff w i p "Actions" [Dive]
             (WaylinesWaypoint.Actions p)
             (dive_ActionRequest validate_ActionRequest) Hi
             ltac:(field_in)) in Hr as [t Ht].
    discriminate.
Qed.

(** X14: the photo setting at index [k] is reported exactly when it is not
    one of [wide], [zoom], [ir], [vision]. *)
Theorem PhotoSettings_violation_iff (w : Waylines.t) (k : nat) (x : string) :
  elems (Waylines.PhotoSettings w) !! k = Some x ->
  reports (violations registry validate_ActionRequest w)
    (root "Waylines" ./ "PhotoSettings" .# k)
  <-> x ∉ ["wide"; "zoom"; "ir"; "vision"].
Proof.
  intros Hk. rewrite <- (oneof_tags registry), errors_eq. split.
  - intros (e & He & Hns).
    apply (validateStruct_under_field registry _ _
             (Sliced "PhotoSettings" _ _ (dive_string registry)) e
             (Waylines_fields_well_placed _ _ w)
             (Waylines_fields_names _ _ w) ltac:(field_in)) in He;
      [| exists [PIndex k]; exact Hns].
    apply elem_of_traverseSlice in He
      as [(t & Ht & _) | (rest & k' & x' & [= <-] & Hk' & He)];
      [discriminate |].
    unfold dive_string in He.
    destruct (run_tags registry _ (KString x')) as [| t |] eqn:Ht;
      try (inversion He; fail).
    apply list_elem_of_singleton in He as ->. simpl in Hns.
    injection Hns as <-. rewrite Hk in Hk'. injection Hk' as <-. eauto.
  - intros (t & Ht).
    exists (mkFieldError (root "Waylines" ./ "PhotoSettings" .# k) t).
    split; [| reflexivity].
    eapply sliced_reported with (name := "PhotoSettings"); [field_in |].
    apply elem_of_traverseSlice. right. eexists _, k, x.
    split; [reflexivity |]. split; [exact Hk |].
    unfold dive_string. rewrite Ht. apply list_elem_of_here.
Qed.

(** X16: what [Validate] reports at or below [Waypoints[i]] depends only on
    the waypoint at index [i]: two missions with the same waypoint there, or
    with none there, have the same errors there. *)
Theorem waypoint_violations_local (w1 w2 : Waylines.t) (i : nat)
    (e : FieldError) :
  elems (Waylines.Waypoints w1) !! i = elems (Waylines.Waypoints w2) !! i ->
  under (root "Waylines" ./ "Waypoints" .# i) e ->
  e ∈ violations registry validate_ActionRequest w1
  <-> e ∈ violations registry validate_ActionRequest w2.
Proof.
  intros Hi Hu. split; intros He.
  - apply (waypoint_errors_inv _ _ w1 i e He) in Hu as (p & Hp & Hw).
    rewrite Hi in Hp. eapply waypoint_errors_reported; eauto.
  - apply (waypoint_errors_inv _ _ w2 i e He) in Hu as (p & Hp & Hw).
    rewrite <- Hi in Hp. eapply waypoint_errors_reported; eauto.
Qed.

End Reports.

(** X7 at the waypoint of [beijing_mission]. *)
Lemma waypoint_Height_violation_iff_witness :
  (reports (violations readme_registry no_action_errors beijing_mission)
     (root "Waylines" ./ "Waypoints" .# 0 ./ "Height")
   <-> PrimFloat.eqb 50%float 0%float = true
       \/ within 5 500 50%float = false)
  /\ (reports (violations readme_registry no_action_errors beijing_mission)
     (root "Waylines" ./ "Waypoints" .# 0 ./ "TurnDampingDist")
   <-> PrimFloat.leb 0%float 0%float = false).
Proof.
  apply (waypoint_Height_violation_iff readme_registry no_action_errors
           beijing_mission 0
           (waypoint 39.9042%float 116.4074%float 50%float 5%float
              "reachPoint")).
  reflexivity.
Defined.

(** X14 at the second photo setting of [photo_mission]. *)
Lemma PhotoSettings_violation_iff_witness :
  reports (violations readme_registry no_action_errors photo_mission)
    (root "Waylines" ./ "PhotoSettings" .# 1)
  <-> "thermal" ∉ ["wide"; "zoom"; "ir"; "vision"].
Proof.
  apply (PhotoSettings_violation_iff readme_registry no_action_errors
           photo_mission 1 "thermal").
  reflexivity.
Defined.

(** X16 at the first waypoint of [equator_mission] and
    [equator_no_globals_mission], which is the same: both missions are
    reported on its latitude. *)
Lemma waypoint_violations_local_witness :
  (mkFieldError (root "Waylines" ./ "Waypoints" .# 0 ./ "Latitude") Required
     ∈ violations readme_registry no_action_errors equator_mission
   <-> mkFieldError (root "Waylines" ./ "Waypoints" .# 0 ./ "Latitude")
         Required
     ∈ violations readme_registry no_action_errors equator_no_globals_mission)
  /\ mkFieldError (root "Waylines" ./ "Waypoints" .# 0 ./ "Latitude") Required
     ∈ violations readme_registry no_action_errors equator_mission.
Proof.
  split.
  - apply (waypoint_violations_local readme_registry no_action_errors
             equator_mission equator_no_globals_mission 0).
    + reflexivity.
    + exists [PField "Latitude"]. reflexivity.
  - vm_compute. apply list_elem_of_here.
Defined.

(** ** The survey mission *)

(** The two loops of [CreateSurveyMission], unrolled. *)
Lemma CreateSurveyMission_waypoints cLat cLon width height altitude :
  elems (Waylines.Waypoints
           (CreateSurveyMission cLat cLon width height altitude))
  = i ← seqZ 0 10; j ← seqZ 0 10;
    [survey_waypoint cLat cLon width height altitude 10 10 i j].
Proof. reflexivity. Qed.

Lemma CreateSurveyMission_waypoint_inv cLat cLon width height altitude p :
  p ∈ elems (Waylines.Waypoints
               (CreateSurveyMission cLat cLon width height altitude)) ->
  exists i j, p = survey_waypoint cLat cLon width height altitude 10 10 i j.
Proof.
  rewrite CreateSurveyMission_waypoints. intros H.
  apply list_elem_of_bind in H as (i & H & _).
  apply list_elem_of_bind in H as (j & H & _).
  apply list_elem_of_singleton in H. eauto.
Qed.

(** X17: [CreateSurveyMission] returns a mission of 100 waypoints, each at
    the given altitude with a single [takePhoto] request and with speed and
    trigger type left unset; the mission's global height is the altitude. *)
Theorem CreateSurveyMission_shape
    (centerLat centerLon width height altitude : float64) :
  let m := CreateSurveyMission centerLat centerLon width height altitude in
  len (Waylines.Waypoints m) = 100%nat
  /\ Waylines.GlobalHeight m = altitude
  /\ forall p, p ∈ elems (Waylines.Waypoints m) ->
       WaylinesWaypoint.Height p = altitude
       /\ elems (WaylinesWaypoint.Actions p) = [takePhoto_request]
       /\ WaylinesWaypoint.Speed p = 0%float
       /\ WaylinesWaypoint.TriggerType p = "".
Proof.
  cbv zeta. split; [reflexivity |]. split; [reflexivity |].
  intros p Hp.
  apply CreateSurveyMission_waypoint_inv in Hp as (i & j & ->).
  repeat split.
Qed.

(** X18: the waypoints are laid out row by row: the waypoint at index
    [10 * i + j] has the latitude of row [i] and the longitude of column
    [j]. *)
Theorem CreateSurveyMission_grid
    (centerLat centerLon width height altitude : float64) (i j : nat) :
  (i < 10)%nat -> (j < 10)%nat ->
  exists p,
    elems (Waylines.Waypoints
             (CreateSurveyMission centerLat centerLon width height altitude))
      !! (10 * i + j)%nat = Some p
    /\ WaylinesWaypoint.Latitude p
       = (centerLat + float64_of_int (Z.of_nat i - 5) * height / 10)%float
    /\ WaylinesWaypoint.Longitude p
       = (centerLon + float64_of_int (Z.of_nat j - 5) * width / 10)%float.
Proof.
  intros Hi Hj.
  exists (survey_waypoint centerLat centerLon width height altitude 10 10
            (Z.of_nat i) (Z.of_nat j)).
  split; [| split; reflexivity].
  rewrite CreateSurveyMission_waypoints.
  do 10 (destruct i as [| i];
         [do 10 (destruct j as [| j]; [reflexivity |]); lia |]).
  lia.
Qed.

Lemma CreateSurveyMission_grid_witness :
  exists p,
    elems (Waylines.Waypoints
             (CreateSurveyMission 39.9042%float 116.4074%float 1%float
                1%float 80%float))
      !! (10 * 5 + 5)%nat = Some p
    /\ WaylinesWaypoint.Latitude p
       = (39.9042 + float64_of_int (Z.of_nat 5 - 5) * 1 / 10)%float
    /\ WaylinesWaypoint.Longitude p
       = (116.4074 + float64_of_int (Z.of_nat 5 - 5) * 1 / 10)%float.
Proof.
  apply (CreateSurveyMission_grid 39.9042%float 116.4074%float 1%float
           1%float 80%float 5 5); lia.
Defined.

(** X19: [Validate] rejects every mission [CreateSurveyMission] builds: each
    of its 100 waypoints leaves [Speed] and [TriggerType] unset and is
    reported on both. *)
Theorem CreateSurveyMission_never_validates
    (registry : string -> FieldValue -> bool)
    (validate_ActionRequest : ActionRequest.t -> list FieldError)
    (centerLat centerLon width height altitude : float64) (i : nat) :
  (i < 100)%nat ->
  let m := CreateSurveyMission centerLat centerLon width height altitude in
  mkFieldError (root "Waylines" ./ "Waypoints" .# i ./ "Speed") (Min 1)
    ∈ violations registry validate_ActionRequest m
  /\ mkFieldError (root "Waylines" ./ "Waypoints" .# i ./ "TriggerType")
       (Oneof trigger_types)
    ∈ violations registry validate_ActionRequest m
  /\ result (Validate registry validate_ActionRequest) m <> None.
Proof.
  intros Hi. cbv zeta.
  set (m := CreateSurveyMission centerLat centerLon width height altitude).
  destruct (lookup_lt_is_Some_2 (elems (Waylines.Waypoints m)) i) as [p Hp];
    [exact Hi |].
  destruct (CreateSurveyMission_waypoint_inv _ _ _ _ _ p
              (list_elem_of_lookup_2 _ _ _ Hp)) as (r & c & Hrc).
  assert (HS : mkFieldError (root "Waylines" ./ "Waypoints" .# i ./ "Speed")
                 (Min 1) ∈ violations registry validate_ActionRequest m).
  { eapply waypoint_errors_reported; [exact Hp |].
    eapply plain_reported; [field_in |]. rewrite Hrc. reflexivity. }
  split; [exact HS |]. split.
  - eapply waypoint_errors_reported; [exact Hp |].
    eapply plain_reported; [field_in |]. rewrite Hrc. reflexivity.
  - eapply reports_not_nil. exists (mkFieldError
      (root "Waylines" ./ "Waypoints" .# i ./ "Speed") (Min 1)).
    split; [exact HS | reflexivity].
Qed.

Lemma CreateSurveyMission_never_validates_witness :
  let m := CreateSurveyMission 39.9042%float 116.4074%float 1%float 1%float
             80%float in
  mkFieldError (root "Waylines" ./ "Waypoints" .# 99 ./ "Speed") (Min 1)
    ∈ violations readme_registry no_action_errors m
  /\ mkFieldError (root "Waylines" ./ "Waypoints" .# 99 ./ "TriggerType")
       (Oneof trigger_types)
    ∈ violations readme_registry no_action_errors m
  /\ result (Validate readme_registry no_action_errors) m <> None.
Proof.
  apply (CreateSurveyMission_never_validates readme_registry no_action_errors
           39.9042%float 116.4074%float 1%float 1%float 80%float 99).
  lia.
Defined.

(** ** The missions Validate accepts *)

Section Accept.
Variable registry : string -> FieldValue -> bool.
Variable validate_ActionRequest : ActionRequest.t -> list FieldError.

Lemma validateStruct_nil_iff ns fs :
  validateStruct registry ns fs = []
  <-> Forall (fun f => traverse registry ns f = []) fs.
Proof.
  induction fs as [| f fs IH].
  - split; [constructor | reflexivity].
  - change (validateStruct registry ns (f :: fs))
      with (traverse registry ns f ++ validateStruct registry ns fs).
    rewrite Forall_cons, <- IH. split.
    + intros H. apply app_eq_nil in H. exact H.
    + intros [-> ->]. reflexivity.
Qed.

Lemma traverseField_nil_iff ns name cts v :
  traverseField registry ns name cts v = []
  <-> ~ exists t, run_tags registry cts v = Failed t.
Proof.
  unfold traverseField. destruct (run_tags registry cts v) as [| t |].
  - split; [intros _ [t Ht]; discriminate | reflexivity].
  - split; [discriminate | intros H; exfalso; eauto].
  - split; [intros _ [t Ht]; discriminate | reflexivity].
Qed.

Lemma dive_nil_iff {A} (g : nat -> A -> list FieldError) (l : list A) :
  mjoin (imap g l) = [] <-> forall i x, l !! i = Some x -> g i x = [].
Proof.
  revert g. induction l as [| y l IH]; intros g.
  - split; [intros _ i x H; inversion H | reflexivity].
  - rewrite imap_cons. simpl. split.
    + intros H. apply app_eq_nil in H as [H0 H]. intros [| i] x Hx.
      * injection Hx as <-. exact H0.
      * apply (proj1 (IH _) H i x Hx).
    + intros H. rewrite (H 0%nat y eq_refl). simpl.
      apply IH. intros i x Hx. apply (H (S i) x Hx).
Qed.

Lemma dive_nil_elem_of {A} (g : nat -> A -> list FieldError) (P : A -> Prop)
    (l : list A) :
  (forall i x, g i x = [] <-> P x) ->
  mjoin (imap g l) = [] <-> forall x, x ∈ l -> P x.
Proof.
  intros Hg. rewrite dive_nil_iff. split.
  - intros H x Hx. apply list_elem_of_lookup in Hx as [i Hi].
    apply (Hg i), (H i x Hi).
  - intros H i x Hi. apply Hg, H, (list_elem_of_lookup_2 _ _ _ Hi).
Qed.

Lemma coordinate_ok ns name lo hi f :
  traverseField registry ns name [Required; Min lo; Max hi] (KFloat64 f) = []
  <-> PrimFloat.eqb f 0%float = false /\ within lo hi f = true.
Proof.
  rewrite traverseField_nil_iff, coordinate_tags.
  destruct (PrimFloat.eqb f 0%float), (within lo hi f); intuition congruence.
Qed.

Lemma range_ok ns name lo hi f :
  traverseField registry ns name [Min lo; Max hi] (KFloat64 f) = []
  <-> within lo hi f = true.
Proof.
  rewrite traverseField_nil_iff, range_tags.
  destruct (within lo hi f); intuition congruence.
Qed.

Lemma min0_ok ns name f :
  traverseField registry ns name [Min 0] (KFloat64 f) = []
  <-> PrimFloat.leb 0%float f = true.
Proof.
  rewrite traverseField_nil_iff, min0_tags.
  destruct (PrimFloat.leb 0%float f); intuition congruence.
Qed.

Lemma oneof_ok ns name vals s :
  traverseField registry ns name [Oneof vals] (KString s) = [] <-> s ∈ vals.
Proof.
  rewrite traverseField_nil_iff, oneof_tags.
  destruct (decide (s ∈ vals)); intuition.
Qed.

Lemma omitempty_oneof_ok ns name vals s :
  traverseField registry ns name [Omitempty; Oneof vals] (KString s) = []
  <-> s = "" \/ s ∈ vals.
Proof.
  rewrite traverseField_nil_iff, omitempty_oneof_tags.
  destruct (decide (s = "")), (decide (s ∈ vals)); intuition.
Qed.

Lemma required_custom_ok ns name tag s :
  traverseField registry ns name [Required; Custom tag] (KString s) = []
  <-> s <> "" /\ registry tag (KString s) = true.
Proof.
  rewrite traverseField_nil_iff, required_custom_tags.
  destruct (decide (s = "")), (registry tag (KString s));
    intuition congruence.
Qed.

Lemma custom_ok ns name tag v :
  traverseField registry ns name [Custom tag] v = []
  <-> registry tag v = true.
Proof.
  rewrite traverseField_nil_iff, custom_tags.
  destruct (registry tag v); intuition congruence.
Qed.

Lemma required_ok ns name s :
  traverseField registry ns name [Required] (KString s) = [] <-> s <> "".
Proof. rewrite traverseField_nil_iff, required_tags. reflexivity. Qed.

Lemma max_string_ok ns name hi s :
  traverseField registry ns name [Max (Z.of_nat hi)] (KString s) = []
  <-> (utf8.RuneCountInString s <= hi)%nat.
Proof. rewrite traverseField_nil_iff, max_string_tags. lia. Qed.

Lemma Name_ok ns name s :
  traverseField registry ns name [Required; Min 1; Max 100] (KString s) = []
  <-> (1 <= utf8.RuneCountInString s <= 100)%nat.
Proof.
  unfold traverseField. rewrite Name_tags.
  destruct (String.eqb_spec s "") as [-> | _].
  - split; [discriminate | vm_compute; lia].
  - destruct (Nat.ltb_spec (utf8.RuneCountInString s) 1);
      [split; [discriminate | lia] |].
    destruct (Nat.ltb_spec 100 (utf8.RuneCountInString s));
      [split; [discriminate | lia] |].
    split; [lia | reflexivity].
Qed.

Lemma untagged_ok ns name v : traverseField registry ns name [] v = [].
Proof. reflexivity. Qed.

Lemma PhotoSettings_ok ns name vals (s : slice string) :
  traverseSlice registry ns name [Dive; Oneof vals] s (dive_string registry)
  = []
  <-> forall x, x ∈ elems s -> x ∈ vals.
Proof.
  unfold traverseSlice. cbn [run_tags].
  apply dive_nil_elem_of. intros i x. unfold dive_string.
  rewrite <- (oneof_ok (ns ./ name .# i) "" vals x). unfold traverseField.
  destruct (run_tags registry [Oneof vals] (KString x));
    split; first [reflexivity | discriminate].
Qed.

Lemma Actions_ok ns name (s : slice ActionRequest.t) :
  traverseSlice registry ns name [Dive] s
    (dive_ActionRequest validate_ActionRequest) = []
  <-> forall a, a ∈ elems s -> validate_ActionRequest a = [].
Proof.
  unfold traverseSlice. cbn [run_tags].
  apply dive_nil_elem_of. intros i a. unfold dive_ActionRequest.
  split; [apply fmap_nil_inv | intros ->; reflexivity].
Qed.

Lemma WaylinesWaypoint_ok ns p :
  validateStruct registry ns
    (WaylinesWaypoint_fields validate_ActionRequest p) = []
  <-> ValidWaypoint validate_ActionRequest p.
Proof.
  rewrite validateStruct_nil_iff. unfold WaylinesWaypoint_fields.
  rewrite !Forall_cons, Forall_nil. cbn [traverse].
  rewrite !coordinate_ok, range_ok, oneof_ok, !min0_ok, omitempty_oneof_ok,
    Actions_ok.
  unfold ValidWaypoint. rewrite untagged_ok. intuition.
Qed.

Lemma Waypoints_ok ns name (s : slice WaylinesWaypoint.t) :
  traverseSlice registry ns name [Required; Min 1; Dive] s
    (dive_WaylinesWaypoint registry validate_ActionRequest) = []
  <-> (1 <= len s)%nat
      /\ forall p, p ∈ elems s -> ValidWaypoint validate_ActionRequest p.
Proof.
  unfold traverseSlice. rewrite Waypoints_tags.
  destruct s as [| l]; cbn [IsNil].
  - split; [discriminate | intros [H _]; unfold len in H; simpl in H; lia].
  - destruct (Nat.ltb_spec (len (mk_slice l)) 1) as [Hl | Hl].
    + split; [discriminate | lia].
    + rewrite (dive_nil_elem_of _ (ValidWaypoint validate_ActionRequest));
        [intuition |].
      intros i p. apply WaylinesWaypoint_ok.
Qed.

(** X20: [Validate] returns [nil] exactly on the valid missions: those that
    pass every tag of [Waylines], have at least one waypoint, and whose
    waypoints each pass every tag of [WaylinesWaypoint] with action requests
    the walk finds nothing in. *)
Theorem Validate_nil_iff (w : Waylines.t) :
  result (Validate registry validate_ActionRequest) w = None
  <-> ValidWaylines registry validate_ActionRequest w.
Proof.
  rewrite Validate_result.
  assert (H : ValidateStruct registry validate_ActionRequest w = None
              <-> validateStruct registry (root "Waylines")
                    (Waylines_fields registry validate_ActionRequest w) = []).
  { unfold ValidateStruct. destruct (validateStruct _ _ _);
      split; first [reflexivity | discriminate]. }
  rewrite H, validateStruct_nil_iff. unfold Waylines_fields.
  rewrite !Forall_cons, Forall_nil. cbn [traverse].
  rewrite Name_ok, (max_string_ok _ _ 500), !required_custom_ok, custom_ok,
    required_ok, !range_ok, PhotoSettings_ok, !oneof_ok, omitempty_oneof_ok,
    min0_ok, Waypoints_ok.
  unfold ValidWaylines. rewrite !untagged_ok. intuition.
Qed.
End Accept.

(** ** Every violated field is named *)

Section Violations.
Variable registry : string -> FieldValue -> bool.
Variable validate_ActionRequest : ActionRequest.t -> list FieldError.

(** A value outside [lo..hi] fails [required,min=lo,max=hi], zero or not. *)
Lemma outside_fails_coordinate lo hi f :
  within lo hi f = false ->
  exists t, run_tags registry [Required; Min lo; Max hi] (KFloat64 f)
            = Failed t.
Proof. intros H. apply coordinate_tags. right. exact H. Qed.

Lemma not_elem_of_fails_oneof vals s :
  s ∉ vals -> exists t, run_tags registry [Oneof vals] (KString s) = Failed t.
Proof. apply oneof_tags. Qed.

(** C2, as amended: [Validate] names every field whose value violates the
    constraint its [validate] tag declares, under the index of its waypoint
    where it has one, and not the first such field only. *)
Theorem Validate_names_every_violated_field (w : Waylines.t) (ns : path) :
  Violated registry validate_ActionRequest w ns ->
  reports (violations registry validate_ActionRequest w) ns.
Proof.
  intros [H | H | H | H | H | H | _ H | _ H | k x Hk H | _ H | _ H | _ H
         | _ H | _ H | _ H | H | H | Hne H | H | H
         | i p Hi H | i p Hi H | i p Hi H | i p Hi _ H | i p Hi _ H
         | i p Hi H | i p Hi Hne H | i p Hi H | i p j a e Hi Hj He].
  - apply (top_field_reports_iff registry validate_ActionRequest w "Name"
             [Required; Min 1; Max 100] (KString (Waylines.Name w))
             ltac:(field_in)).
    rewrite Name_tags.
    destruct (String.eqb (Waylines.Name w) ""); [eauto |].
    destruct (Nat.ltb_spec (utf8.RuneCountInString (Waylines.Name w)) 1);
      [eauto |].
    destruct (Nat.ltb_spec 100 (utf8.RuneCountInString (Waylines.Name w)));
      [eauto | lia].
  - apply (top_field_reports_iff registry validate_ActionRequest w
             "Description" _ _ ltac:(field_in)).
    apply (max_string_tags registry 500). exact H.
  - apply (top_field_reports_iff registry validate_ActionRequest w
             "DroneModel" _ _ ltac:(field_in)).
    apply required_custom_tags. exact H.
  - apply (top_field_reports_iff registry validate_ActionRequest w
             "PayloadModel" _ _ ltac:(field_in)).
    apply required_custom_tags. exact H.
  - apply (top_field_reports_iff registry validate_ActionRequest w
             "PayloadPositionIndex" _ _ ltac:(field_in)).
    apply custom_tags. exact H.
  - apply (top_field_reports_iff registry validate_ActionRequest w
             "TemplateType" _ _ ltac:(field_in)).
    apply required_tags. exact H.
  - apply (top_field_reports_iff registry validate_ActionRequest w
             "GlobalHeight" _ _ ltac:(field_in)).
    apply range_tags. exact H.
  - apply (top_field_reports_iff registry validate_ActionRequest w
             "GlobalSpeed" _ _ ltac:(field_in)).
    apply range_tags. exact H.
  - destruct (not_elem_of_fails_oneof _ _ H) as [t Ht].
    exists (mkFieldError (root "Waylines" ./ "PhotoSettings" .# k) t).
    split; [| reflexivity]. rewrite errors_eq.
    eapply sliced_reported with (name := "PhotoSettings"); [field_in |].
    apply elem_of_traverseSlice. right. eexists _, k, x.
    split; [reflexivity |]. split; [exact Hk |].
    unfold dive_string. rewrite Ht. apply list_elem_of_here.
  - apply (top_field_reports_iff registry validate_ActionRequest w
             "ClimbMode" _ _ ltac:(field_in)).
    apply oneof_tags. exact H.
  - apply (top_field_reports_iff registry validate_ActionRequest w
             "SafeHeight" _ _ ltac:(field_in)).
    apply range_tags. exact H.
  - apply (top_field_reports_iff registry validate_ActionRequest w
             "GlobalRTHHeight" _ _ ltac:(field_in)).
    apply range_tags. exact H.
  - apply (top_field_reports_iff registry validate_ActionRequest w
             "AircraftYawMode" _ _ ltac:(field_in)).
    apply oneof_tags. exact H.
  - apply (top_field_reports_iff registry validate_ActionRequest w
             "GimbalPitchMode" _ _ ltac:(field_in)).
    apply oneof_tags. exact H.
  - apply (top_field_reports_iff registry validate_ActionRequest w
             "GlobalTransitionalSpeed" _ _ ltac:(field_in)).
    apply range_tags. exact H.
  - apply (top_field_reports_iff registry validate_ActionRequest w
             "TakeOffRefPointLatitude" _ _ ltac:(field_in)).
    apply range_tags. exact H.
  - apply (top_field_reports_iff registry validate_ActionRequest w
             "TakeOffRefPointLongitude" _ _ ltac:(field_in)).
    apply range_tags. exact H.
  - apply (top_field_reports_iff registry validate_ActionRequest w
             "GlobalWaypointTurnMode" _ _ ltac:(field_in)).
    apply omitempty_oneof_tags. split; assumption.
  - apply (top_field_reports_iff registry validate_ActionRequest w
             "GlobalTurnDampingDist" _ _ ltac:(field_in)).
    apply min0_tags. exact H.
  - rewrite errors_eq.
    apply (sliced_reports_iff registry _ _ "Waypoints" _
             (Waylines.Waypoints w)
             (dive_WaylinesWaypoint registry validate_ActionRequest)
             (Waylines_fields_well_placed _ _ w)
             (Waylines_fields_names _ _ w) ltac:(field_in)).
    rewrite Waypoints_tags. destruct (IsNil (Waylines.Waypoints w)); [eauto |].
    rewrite H. simpl. eauto.
  - apply (waypoint_field_reports_iff registry validate_ActionRequest w i p
             "Latitude" _ _ Hi ltac:(field_in)).
    apply outside_fails_coordinate. exact H.
  - apply (waypoint_field_reports_iff registry validate_ActionRequest w i p
             "Longitude" _ _ Hi ltac:(field_in)).
    apply outside_fails_coordinate. exact H.
  - apply (waypoint_field_reports_iff registry validate_ActionRequest w i p
             "Height" _ _ Hi ltac:(field_in)).
    apply outside_fails_coordinate. exact H.
  - apply (waypoint_field_reports_iff registry validate_ActionRequest w i p
             "Speed" _ _ Hi ltac:(field_in)).
    apply range_tags. exact H.
  - apply (waypoint_field_reports_iff registry validate_ActionRequest w i p
             "TriggerType" _ _ Hi ltac:(field_in)).
    apply oneof_tags. exact H.
  - apply (waypoint_field_reports_iff registry validate_ActionRequest w i p
             "TriggerParam" _ _ Hi ltac:(field_in)).
    apply min0_tags. exact H.
  - apply (waypoint_field_reports_iff registry validate_ActionRequest w i p
             "WaypointTurnMode" _ _ Hi ltac:(field_in)).
    apply omitempty_oneof_tags. split; assumption.
  - apply (waypoint_field_reports_iff registry validate_ActionRequest w i p
             "TurnDampingDist" _ _ Hi ltac:(field_in)).
    apply min0_tags. exact H.
  - exists (relocate
              (root "Waylines" ./ "Waypoints" .# i ./ "Actions" .# j) e).
    split; [| reflexivity].
    eapply waypoint_errors_reported; [exact Hi |].
    eapply sliced_reported with (name := "Actions"); [field_in |].
    apply elem_of_traverseSlice. right. exists [], j, a.
    split; [reflexivity |]. split; [exact Hj |].
    unfold dive_ActionRequest. apply list_elem_of_fmap. eauto.
Qed.

End Violations.

(** C2, as amended, at latitude 200 and height 3000 on one waypoint: both
    fields are named. *)
Lemma Validate_names_every_violated_field_witness :
  reports (violations readme_registry no_action_errors two_violations_mission)
    (root "Waylines" ./ "Waypoints" .# 0 ./ "Latitude")
  /\ reports
       (violations readme_registry no_action_errors two_violations_mission)
       (root "Waylines" ./ "Waypoints" .# 0 ./ "Height").
Proof.
  split.
  - apply (Validate_names_every_violated_field readme_registry
             no_action_errors two_violations_mission).
    eapply V_Latitude; reflexivity.
  - apply (Validate_names_every_violated_field readme_registry
             no_action_errors two_violations_mission).
    eapply V_Height; reflexivity.
Defined.

(** C2 as first stated fails: of the two constraints the spec declares that
    [two_declared_violations_mission] breaks, the latitude range and the
    membership of the finish action, [Validate] names the latitude only:
    [FinishAction] carries no [validate] tag. *)
Lemma Validate_misses_finish_action :
  within (-90) 90 200%float = false
  /\ existsb
       (String.eqb (Waylines.FinishAction two_declared_violations_mission))
       finish_actions = false
  /\ result (Validate readme_registry no_action_errors)
       two_declared_violations_mission
     = Some [mkFieldError
               (root "Waylines" ./ "Waypoints" .# 0 ./ "Latitude") (Max 90)].
Proof. repeat split; vm_compute; reflexivity. Qed.

(** ** Conversions to float64 *)

Example float64_of_MinInt64 :
  float64_of_int (- 2 ^ 63) = (-9223372036854775808)%float.
Proof. vm_compute. reflexivity. Qed.

Example float64_of_MaxInt64 :
  float64_of_int (2 ^ 63 - 1) = 9223372036854775808%float.
Proof. vm_compute. reflexivity. Qed.

(** A tie rounds to even: 2^53 + 1 lies halfway between two floats. *)
Example float64_of_int_tie :
  float64_of_int (2 ^ 53 + 1) = 9007199254740992%float
  /\ float64_of_int (2 ^ 53 + 3) = 9007199254740996%float.
Proof. split; vm_compute; reflexivity. Qed.

Example asFloat64_of_the_tags :
  asFloat64 (-180) = (-180)%float /\ asFloat64 1500 = 1500%float.
Proof. split; vm_compute; reflexivity. Qed.
